(** * Verification of haystack/nodes/file_converter/tika.py

    A shallow embedding of [TikaXHTMLParser] (the page splitter) and of
    [TikaConverter.convert] (numeric-table filter, language check, page join
    and metadata merge), followed by the properties proved about them.

    Python strings are sequences of Unicode code points; they are modelled as
    lists of code points ([N]).  The [str] methods the source calls
    ([split], [strip], [endswith], [splitlines], [join], [replace]) are
    embedded after their CPython behaviour. *)

From Stdlib Require Import NArith QArith Lia.
From stdpp Require Import gmap strings list fin_maps.

Local Open Scope N_scope.
Local Open Scope list_scope.

(** ** Python [str] *)

Definition pystr := list N.

(** A literal: the code points of an ASCII string. *)
Definition py (s : string) : pystr :=
  map Ascii.N_of_ascii (String.list_ascii_of_string s).

Definition LF : N := 10.      (* "\n" *)
Definition FF : N := 12.      (* "\f" *)
Definition CR : N := 13.      (* "\r" *)
Definition HYPHEN : N := 45.  (* "-" *)
Definition PERIOD : N := 46.  (* "." *)

(** [a == b] on strings. *)
Fixpoint str_eqb (a b : pystr) : bool :=
  match a, b with
  | [], [] => true
  | x :: a', y :: b' => (x =? y) && str_eqb a' b'
  | _, _ => false
  end.

(** [value == "..."] where [value] may be [None]. *)
Definition opt_str_eqb (a : option pystr) (b : pystr) : bool :=
  match a with
  | Some a' => str_eqb a' b
  | None => false
  end.

(** Truth value of a list: empty lists are false. *)
Definition truthy {A} (l : list A) : bool :=
  match l with
  | [] => false
  | _ :: _ => true
  end.

(** Whitespace in the sense of [str.split()] and [str.strip()]
    (CPython's [_PyUnicode_IsWhitespace]). *)
Definition isspace (c : N) : bool :=
  ((9 <=? c) && (c <=? 13)) || ((28 <=? c) && (c <=? 32))
  || (c =? 133) || (c =? 160) || (c =? 5760)
  || ((8192 <=? c) && (c <=? 8202))
  || (c =? 8232) || (c =? 8233) || (c =? 8239) || (c =? 8287)
  || (c =? 12288).

(** Line boundaries of [str.splitlines()]
    (CPython's [_PyUnicode_IsLinebreak]). *)
Definition islinebreak (c : N) : bool :=
  ((10 <=? c) && (c <=? 13)) || ((28 <=? c) && (c <=? 30))
  || (c =? 133) || (c =? 8232) || (c =? 8233).

(** [s.split()]: the maximal runs of non-whitespace characters.  [cur] is
    the word being read. *)
Fixpoint split_from (cur : pystr) (s : pystr) : list pystr :=
  match s with
  | [] => if truthy cur then [cur] else []
  | c :: rest =>
      if isspace c
      then (if truthy cur then cur :: split_from [] rest
            else split_from [] rest)
      else split_from (cur ++ [c]) rest
  end.

Definition split (s : pystr) : list pystr := split_from [] s.

(** [s.strip()]. *)
Fixpoint lstrip (s : pystr) : pystr :=
  match s with
  | [] => []
  | c :: rest => if isspace c then lstrip rest else s
  end.

Definition rstrip (s : pystr) : pystr := rev (lstrip (rev s)).

Definition strip (s : pystr) : pystr := rstrip (lstrip s).

(** [s.startswith(p)] and [s.endswith(p)]. *)
Fixpoint startswith (s p : pystr) : bool :=
  match p, s with
  | [], _ => true
  | x :: p', y :: s' => (x =? y) && startswith s' p'
  | _ :: _, [] => false
  end.

Definition endswith (s p : pystr) : bool := startswith (rev s) (rev p).

(** [c] is put in front of the first line of [ls]. *)
Definition cons_first (c : N) (ls : list pystr) : list pystr :=
  match ls with
  | [] => [[c]]
  | l :: ls' => (c :: l) :: ls'
  end.

(** [s.splitlines()]: a line ends at each line boundary, ["\r\n"] is one
    boundary, and no empty line follows a boundary that ends the string. *)
Fixpoint splitlines (s : pystr) : list pystr :=
  match s with
  | [] => []
  | c :: rest =>
      if islinebreak c
      then [] :: match rest with
                 | d :: rest' =>
                     if (c =? CR) && (d =? LF) then splitlines rest'
                     else splitlines rest
                 | [] => []
                 end
      else cons_first c (splitlines rest)
  end.

(** [sep.join(l)]. *)
Fixpoint join (sep : pystr) (l : list pystr) : pystr :=
  match l with
  | [] => []
  | [x] => x
  | x :: l' => x ++ sep ++ join sep l'
  end.

(** [s.replace(old, new)] for a non-empty [old]: the occurrences of [old]
    are found from left to right, without overlap, and each is replaced.
    [skip] counts the characters of a found occurrence still to be passed. *)
Fixpoint replace_from (old new : pystr) (skip : nat) (s : pystr) : pystr :=
  match s with
  | [] => []
  | c :: rest =>
      match skip with
      | S k => replace_from old new k rest
      | O =>
          if startswith s old
          then new ++ replace_from old new (length old - 1) rest
          else c :: replace_from old new 0 rest
      end
  end.

Definition replace (s old new : pystr) : pystr := replace_from old new 0 s.

(** [any(p(i) for i in word)]. *)
Definition any {A} (p : A -> bool) (l : list A) : bool := existsb p l.

(** ** [TikaXHTMLParser]

    [HTMLParser.feed] tokenises the markup and calls the handlers in document
    order; the markup is represented by that sequence of handler calls.  The
    handlers the class does not override (comments, declarations, processing
    instructions) do nothing and are left out; an empty element [<p/>]
    arrives as a start tag followed by an end tag. *)

Definition attrs_t := list (pystr * option pystr).

Inductive event :=
| starttag (tag : pystr) (attrs : attrs_t)
| endtag (tag : pystr)
| data (d : pystr).

Record TikaXHTMLParser := mkParser {
  ingest : bool;
  page : pystr;
  pages : list pystr
}.

(** [__init__] *)
Definition parser_init : TikaXHTMLParser :=
  {| ingest := true; page := []; pages := [] |}.

(** [[value for attr, value in attrs if attr == "class" and value == "page"]] *)
Definition pagediv (attrs : attrs_t) : list (option pystr) :=
  map snd (List.filter
             (fun av => str_eqb (fst av) (py "class")
                        && opt_str_eqb (snd av) (py "page")) attrs).

Definition handle_starttag (self : TikaXHTMLParser) (tag : pystr)
    (attrs : attrs_t) : TikaXHTMLParser :=
  if str_eqb tag (py "div") && truthy (pagediv attrs)
  then {| ingest := true; page := page self; pages := pages self |}
  else self.

Definition handle_endtag (self : TikaXHTMLParser) (tag : pystr)
    : TikaXHTMLParser :=
  if (str_eqb tag (py "div") || str_eqb tag (py "body")) && ingest self
  then {| ingest := false;
          page := [];
          pages := pages self ++ [replace (page self) [HYPHEN; LF] []] |}
  else self.

Definition handle_data (self : TikaXHTMLParser) (d : pystr)
    : TikaXHTMLParser :=
  if ingest self
  then {| ingest := ingest self; page := page self ++ d; pages := pages self |}
  else self.

Definition handle (self : TikaXHTMLParser) (e : event) : TikaXHTMLParser :=
  match e with
  | starttag tag attrs => handle_starttag self tag attrs
  | endtag tag => handle_endtag self tag
  | data d => handle_data self d
  end.

(** [parser.feed(markup)] *)
Definition feed (self : TikaXHTMLParser) (markup : list event)
    : TikaXHTMLParser :=
  fold_left handle markup self.

(** ** [TikaConverter] *)

Record TikaConverter := mkConverter {
  self_tika_url : pystr;
  self_remove_numeric_tables : bool;
  self_valid_languages : option (list pystr);
  self_id_hash_keys : option (list pystr)
}.

(** The response of [tika_parser.from_file(..., xmlContent=True)]:
    [parsed["content"]], as the handler calls its markup gives rise to, and
    [parsed["metadata"]]. *)
Record Parsed := mkParsed {
  parsed_content : list event;
  parsed_metadata : gmap pystr pystr
}.

(** The fields [convert] passes to [Document(...)]. *)
Record Document := mkDocument {
  content : pystr;
  meta : gmap pystr pystr;
  id_hash_keys : option (list pystr)
}.

(** The records written through [logger]. *)
Inductive log_record :=
| debug_removing_line (line : pystr) (file_path : pystr)
| warning_language (file_path : pystr) (valid_languages : list pystr).

(** [d1.update(d2)]: the keys of [d2] overwrite those of [d1]. *)
Definition dict_update (d1 d2 : gmap pystr pystr) : gmap pystr pystr :=
  d2 ∪ d1.

(** [{**d1, **d2}] *)
Definition dict_unpack (d1 d2 : gmap pystr pystr) : gmap pystr pystr :=
  dict_update (dict_update ∅ d1) d2.

(** [meta or {}] *)
Definition or_empty (meta : option (gmap pystr pystr)) : gmap pystr pystr :=
  match meta with
  | Some m => m
  | None => ∅
  end.

(** [x = self.x if x is None else x] *)
Definition or_default {A} (x : option A) (d : A) : A :=
  match x with
  | Some v => v
  | None => d
  end.

(** [len(digits) / len(words) > 0.4], with the quotient and the bound taken
    as exact rationals.  The source computes in floating point; the quotient
    and the literal are both correctly rounded, so the two comparisons can
    differ only for a line of more than 10^15 words. *)
Definition ratio_gt_04 (digits words : list pystr) : bool :=
  negb (Qle_bool (inject_Z (Z.of_nat (length digits))
                  / inject_Z (Z.of_nat (length words)))
                 (4 # 10)).

Section Convert.

(** [str.isdigit] on one character, read from the Unicode database. *)
Variable isdigit : N -> bool.

(** [BaseConverter.validate_language(text, valid_languages)] *)
Variable validate_language : pystr -> list pystr -> bool.

(** The test that guards [continue] when [remove_numeric_tables] is set. *)
Definition numeric_row (line : pystr) : bool :=
  let words := split line in
  let digits := List.filter (fun word => any isdigit word) words in
  truthy words && ratio_gt_04 digits words
  && negb (endswith (strip line) (py ".")).

(** [for line in lines: ...], threading [cleaned_lines] and the log. *)
Fixpoint clean_lines (file_path : pystr) (remove_numeric_tables : bool)
    (lines : list pystr) (cleaned_lines : list pystr) (log : list log_record)
    : list pystr * list log_record :=
  match lines with
  | [] => (cleaned_lines, log)
  | line :: rest =>
      if remove_numeric_tables && numeric_row line
      then clean_lines file_path remove_numeric_tables rest cleaned_lines
             (log ++ [debug_removing_line line file_path])
      else clean_lines file_path remove_numeric_tables rest
             (cleaned_lines ++ [line]) log
  end.

(** [for page in parser.pages: ...], threading [cleaned_pages] and the log. *)
Fixpoint clean_pages (file_path : pystr) (remove_numeric_tables : bool)
    (pgs : list pystr) (cleaned_pages : list pystr) (log : list log_record)
    : list pystr * list log_record :=
  match pgs with
  | [] => (cleaned_pages, log)
  | page :: rest =>
      let lines := splitlines page in
      let '(cleaned_lines, log') :=
        clean_lines file_path remove_numeric_tables lines [] log in
      let page' := join [LF] cleaned_lines in
      clean_pages file_path remove_numeric_tables rest
        (cleaned_pages ++ [page']) log'
  end.

(** [TikaConverter.convert]; the result is the returned list together with
    the log records written. *)
Definition convert (self : TikaConverter) (parsed : Parsed)
    (file_path : pystr) (meta : option (gmap pystr pystr))
    (remove_numeric_tables : option bool)
    (valid_languages : option (list pystr))
    (encoding : option pystr)
    (id_hash_keys : option (list pystr))
    : list Document * list log_record :=
  let remove_numeric_tables :=
    or_default remove_numeric_tables (self_remove_numeric_tables self) in
  let valid_languages :=
    match valid_languages with
    | None => self_valid_languages self
    | Some l => Some l
    end in
  let id_hash_keys :=
    match id_hash_keys with
    | None => self_id_hash_keys self
    | Some l => Some l
    end in
  let parser := feed parser_init (parsed_content parsed) in
  let '(cleaned_pages, log) :=
    clean_pages file_path remove_numeric_tables (pages parser) [] [] in
  let log :=
    match valid_languages with
    | Some (l :: ls) =>
        let document_text := join [] cleaned_pages in
        if negb (validate_language document_text (l :: ls))
        then log ++ [warning_language file_path (l :: ls)]
        else log
    | _ => log
    end in
  let text := join [FF] cleaned_pages in
  ([ {| content := text;
        meta := dict_unpack (parsed_metadata parsed) (or_empty meta);
        id_hash_keys := id_hash_keys |} ], log).

(** The page text the page loop computes from one page of the parser. *)
Definition clean_page (remove_numeric_tables : bool) (page : pystr) : pystr :=
  join [LF] (fst (clean_lines [] remove_numeric_tables (splitlines page) [] [])).

End Convert.

(** ** Vocabulary of the properties *)

(** [sub] occurs in [s]. *)
Definition contains (s sub : pystr) : Prop :=
  exists a b, s = a ++ sub ++ b.

(** The only line boundaries of [s] are ["\n"] characters. *)
Definition only_lf_breaks (s : pystr) : bool :=
  forallb (fun c => negb (islinebreak c) || (c =? LF)) s.

(** [s] holds no line boundary: it is a line. *)
Definition is_line (s : pystr) : bool :=
  forallb (fun c => negb (islinebreak c)) s.

(** A start tag that opens a page container: [<div class="page">]. *)
Definition is_page_start (e : event) : bool :=
  match e with
  | starttag tag attrs => str_eqb tag (py "div") && truthy (pagediv attrs)
  | _ => false
  end.

(** An end tag that can flush a page: [</div>] or [</body>]. *)
Definition is_flush_tag (e : event) : bool :=
  match e with
  | endtag tag => str_eqb tag (py "div") || str_eqb tag (py "body")
  | _ => false
  end.

(** The character data of a run of markup, concatenated. *)
Fixpoint text_of (markup : list event) : pystr :=
  match markup with
  | [] => []
  | data d :: rest => d ++ text_of rest
  | _ :: rest => text_of rest
  end.

(** A page container with the markup that precedes it: [gap], then
    [<div class="page" ...>], [inner], [</div>]. *)
Record page_block := mkBlock {
  gap : list event;
  block_attrs : attrs_t;
  inner : list event
}.

Definition page_container (b : page_block) : list event :=
  gap b ++ starttag (py "div") (block_attrs b) :: inner b
        ++ [endtag (py "div")].

(** The start tag carries class ["page"], nothing outside the container
    opens a page or closes a div or the body, and nothing inside the
    container closes a div or the body. *)
Definition flat_block (b : page_block) : bool :=
  truthy (pagediv (block_attrs b))
  && forallb (fun e => negb (is_page_start e) && negb (is_flush_tag e)) (gap b)
  && forallb (fun e => negb (is_flush_tag e)) (inner b).

(** Markup made of [pre], the page containers [blocks], the body close and
    [post]. *)
Definition paged_markup (pre : list event) (blocks : list page_block)
    (post : list event) : list event :=
  pre ++ flat_map page_container blocks ++ endtag (py "body") :: post.

(** The hyphen rejoining applied at a flush. *)
Definition rejoin (raw : pystr) : pystr := replace raw [HYPHEN; LF] [].

(** The splitter without the hyphen rejoining: it records the raw
    accumulated text of each page. *)
Definition handle_raw (self : TikaXHTMLParser) (e : event) : TikaXHTMLParser :=
  match e with
  | endtag tag =>
      if (str_eqb tag (py "div") || str_eqb tag (py "body")) && ingest self
      then {| ingest := false; page := []; pages := pages self ++ [page self] |}
      else self
  | _ => handle self e
  end.

Definition raw_pages (markup : list event) : list pystr :=
  pages (fold_left handle_raw markup parser_init).

(** The digit ratio of a line: words holding a digit over all words. *)
Definition digit_ratio (isdigit : N -> bool) (line : pystr) : Q :=
  inject_Z (Z.of_nat (length (List.filter (fun word => any isdigit word)
                                          (split line))))
  / inject_Z (Z.of_nat (length (split line))).

(** The language allow-list in effect: the call-time value, else the
    instance default. *)
Definition effective_languages (self : TikaConverter)
    (valid_languages : option (list pystr)) : option (list pystr) :=
  match valid_languages with
  | None => self_valid_languages self
  | Some l => Some l
  end.

(** The lines of a page that the filter keeps. *)
Definition kept_lines (isdigit : N -> bool) (remove_numeric_tables : bool)
    (page : pystr) : list pystr :=
  List.filter (fun line => negb (remove_numeric_tables
                                 && numeric_row isdigit line))
              (splitlines page).

(** The debug records written while the pages are filtered. *)
Definition removal_log (isdigit : N -> bool) (file_path : pystr)
    (remove_numeric_tables : bool) (pgs : list pystr) : list log_record :=
  flat_map
    (fun page =>
       map (fun line => debug_removing_line line file_path)
           (List.filter (fun line => remove_numeric_tables
                                     && numeric_row isdigit line)
                        (splitlines page)))
    pgs.

(** The cleaned pages of a call of [convert]. *)
Definition cleaned_pages_of (isdigit : N -> bool) (self : TikaConverter)
    (remove_numeric_tables : option bool) (parsed : Parsed) : list pystr :=
  map (clean_page isdigit
         (or_default remove_numeric_tables (self_remove_numeric_tables self)))
      (pages (feed parser_init (parsed_content parsed))).

(** A list of lines without its last line when that line is empty: what
    [splitlines] gives back for the lines joined with ["\n"]. *)
Fixpoint drop_trailing_empty (lines : list pystr) : list pystr :=
  match lines with
  | [] => []
  | [l] => if truthy l then [l] else []
  | l :: rest => l :: drop_trailing_empty rest
  end.

(** ASCII digits, the part of [str.isdigit] the examples exercise. *)
Definition isdigit_ascii (c : N) : bool := (48 <=? c) && (c <=? 57).

(** A validator that accepts nothing, for the examples. *)
Definition reject_all (text : pystr) (langs : list pystr) : bool := false.

(** ** Example inputs *)

Definition class_page : attrs_t := [(py "class", Some (py "page"))].

(** [<html><head><title>T</title></head><body>] *)
Definition ex_head : list event :=
  [starttag (py "html") []; starttag (py "head") [];
   starttag (py "title") []; data (py "T"); endtag (py "title");
   endtag (py "head"); starttag (py "body") []].

(** [<div class="page"><p>text</p></div>], after a newline. *)
Definition ex_block (text : pystr) : page_block :=
  {| gap := [data [LF]];
     block_attrs := class_page;
     inner := [starttag (py "p") []; data text; endtag (py "p")] |}.

(** [</html>] *)
Definition ex_tail : list event := [endtag (py "html")].

(** [<body><div class="page">a</div></body>] *)
Definition ex_one_page : list event :=
  paged_markup [starttag (py "body") []]
    [ {| gap := []; block_attrs := class_page; inner := [data (py "a")] |} ]
    [].

(** [<body><div class="page">a</div>], cut before the body close. *)
Definition ex_unclosed : list event :=
  [starttag (py "body") []; starttag (py "div") class_page;
   data (py "a"); endtag (py "div")].

(** [<body><p>a</p>b], with no div and no body close. *)
Definition ex_unclosed_flat : list event :=
  [starttag (py "body") []; starttag (py "p") []; data (py "a");
   endtag (py "p"); data (py "b")].

(** A body containing the text ["--\n\n"], closed. *)
Definition ex_dashes : list event :=
  [starttag (py "body") []; data [HYPHEN; HYPHEN; LF; LF];
   endtag (py "body")].

(** [<body><p>wrap-\nped</p></body>] *)
Definition ex_wrapped : list event :=
  [starttag (py "body") []; starttag (py "p") [];
   data (py "wrap-" ++ [LF] ++ py "ped"); endtag (py "p");
   endtag (py "body")].

(** A body close. *)
Definition is_body_close (e : event) : bool :=
  match e with
  | endtag tag => str_eqb tag (py "body")
  | _ => false
  end.

(** A page that ends with a newline, and one that ends with an empty line. *)
Definition ex_page_a : pystr := py "a" ++ [LF].
Definition ex_page_b : pystr := py "b" ++ [LF].
Definition ex_page_blank : pystr := py "a" ++ [LF; LF].

(** [<body><div class="page">a\n</div><div class="page">b\n</div></body>] *)
Definition ex_two_pages : list event :=
  paged_markup [starttag (py "body") []]
    [ {| gap := []; block_attrs := class_page; inner := [data ex_page_a] |};
      {| gap := []; block_attrs := class_page; inner := [data ex_page_b] |} ]
    [].

(** The same two pages, each without its last newline. *)
Definition ex_two_pages_trimmed : list event :=
  paged_markup [starttag (py "body") []]
    [ {| gap := []; block_attrs := class_page;
         inner := [data (py "a" ++ [LF] ++ py "c")] |};
      {| gap := []; block_attrs := class_page; inner := [data (py "b")] |} ]
    [].

Definition ex_converter : TikaConverter :=
  {| self_tika_url := py "http://localhost:9998/tika";
     self_remove_numeric_tables := false;
     self_valid_languages := None;
     self_id_hash_keys := None |}.

Definition ex_parsed (markup : list event) : Parsed :=
  {| parsed_content := markup; parsed_metadata := ∅ |}.

Definition ex_path : pystr := py "sample.pdf".

(** The allow-list [["de", "fr"]]. *)
Definition ex_langs : list pystr := [py "de"; py "fr"].

(** Service metadata [{"title": "A"}] and caller metadata
    [{"title": "B", "author": "C"}]. *)
Definition ex_service_meta : gmap pystr pystr := {[ py "title" := py "A" ]}.
Definition ex_caller_meta : gmap pystr pystr :=
  <[ py "title" := py "B" ]> {[ py "author" := py "C" ]}.

(** ** Further vocabulary *)

(** [s.split(sep)] for a separator [sep] of one character: the pieces
    between the separators, one more than there are separators. *)
Fixpoint split_char (sep : N) (s : pystr) : list pystr :=
  match s with
  | [] => [[]]
  | c :: rest =>
      if c =? sep then [] :: split_char sep rest
      else cons_first c (split_char sep rest)
  end.

(** The number of positions of [s] at which [sub] occurs. *)
Fixpoint count_occurrences (s sub : pystr) : nat :=
  match s with
  | [] => 0
  | _ :: rest =>
      ((if startswith s sub then 1 else 0) + count_occurrences rest sub)%nat
  end.

(** The events the handlers react to: character data, page starts, and div
    or body closes. *)
Definition is_relevant (e : event) : bool :=
  match e with
  | data _ => true
  | _ => is_page_start e || is_flush_tag e
  end.

(** [1] for an ingesting parser, [0] for an idle one. *)
Definition ingesting (s : TikaXHTMLParser) : nat :=
  if ingest s then 1%nat else 0%nat.

(** [c] is not the page separator ["\f"]. *)
Definition not_FF (c : N) : bool := negb (c =? FF).

(** [e] is the start tag of a div element that carries class ["page"]: a
    [div] start tag among whose attributes is [class] with the value
    ["page"]. *)
Definition page_div_start (e : event) : Prop :=
  exists attrs,
    e = starttag (py "div") attrs
    /\ In (py "class", Some (py "page")) attrs.

(** Markup without a page container start: text, a [p], divs with no
    attribute, with ["page"] as the value of another attribute, with a
    valueless [class] and with another class, a [span] of class ["page"],
    and a div close. *)
Definition ex_between : list event :=
  [data (py "lost"); starttag (py "p") [];
   starttag (py "div") [];
   starttag (py "div") [(py "id", Some (py "page"))];
   starttag (py "div") [(py "class", None)];
   starttag (py "div") [(py "class", Some (py "pages"))];
   starttag (py "span") class_page;
   endtag (py "div"); data (py "lost too")].

(** * Properties *)

(** ** Strings *)

Lemma list_ind2 {A} (P : list A -> Prop) :
  P [] ->
  (forall c, P [c]) ->
  (forall c d r, P r -> P (d :: r) -> P (c :: d :: r)) ->
  forall s, P s.
Proof.
  intros Hnil Hone Hstep s.
  assert (H : P s /\ forall c, P (c :: s)).
  { induction s as [|d r [IHr IHc]].
    - split; [exact Hnil | exact Hone].
    - split; [apply IHc | intros c; apply Hstep; [exact IHr | apply IHc]]. }
  exact (proj1 H).
Qed.

Lemma str_eqb_eq (a b : pystr) : str_eqb a b = true <-> a = b.
Proof.
  revert b; induction a as [|x a IH]; intros [|y b]; simpl;
    try (split; intros; congruence).
  rewrite andb_true_iff, N.eqb_eq, IH.
  split; [intros [-> ->]; reflexivity | intros [= -> ->]; auto].
Qed.

(** The [str] methods on inputs whose results were read off CPython. *)

Example split_example :
  split (py " a  b1 " ++ [9] ++ py "c") = [py "a"; py "b1"; py "c"]
  /\ split (py "   ") = [] /\ split [] = []
  /\ split (py "a" ++ [160] ++ py "b" ++ [31] ++ py "c")
     = [py "a"; py "b"; py "c"].
Proof. repeat split. Qed.

Example strip_example :
  strip (py " a  b1. " ++ [9]) = py "a  b1." /\ strip (py "  ") = [].
Proof. split; reflexivity. Qed.

Example splitlines_example :
  splitlines (py "a" ++ [LF]) = [py "a"]
  /\ splitlines (py "a" ++ [LF; LF]) = [py "a"; []]
  /\ splitlines [LF] = [[]]
  /\ splitlines [] = []
  /\ splitlines [CR; LF; LF] = [[]; []]
  /\ splitlines (py "a" ++ [CR; LF] ++ py "b" ++ [CR] ++ py "c" ++ [11]
                 ++ py "d" ++ [133] ++ py "e f")
     = [py "a"; py "b"; py "c"; py "d"; py "e f"].
Proof. repeat split. Qed.

Example join_example :
  join [LF] [py "a"; []] = py "a" ++ [LF]
  /\ join [LF] [[]] = []
  /\ join [FF] [py "a"; py "b"] = py "a" ++ [FF] ++ py "b".
Proof. repeat split. Qed.

Example replace_example :
  replace (py "ab-" ++ [LF] ++ py "cd-" ++ [LF] ++ py "-e") [HYPHEN; LF] []
  = py "abcd-e"
  /\ replace [HYPHEN; HYPHEN; LF; LF] [HYPHEN; LF] [] = [HYPHEN; LF]
  /\ replace (py "banana") (py "ana") (py "x") = py "bxna".
Proof. repeat split. Qed.

Lemma rejoin_nil : rejoin [] = [].
Proof. reflexivity. Qed.

Lemma rejoin_one (c : N) : rejoin [c] = [c].
Proof.
  unfold rejoin, replace. cbn [replace_from startswith].
  rewrite andb_false_r. reflexivity.
Qed.

Lemma rejoin_cons2 (c d : N) (r : pystr) :
  rejoin (c :: d :: r) =
  if (c =? HYPHEN) && (d =? LF) then rejoin r else c :: rejoin (d :: r).
Proof.
  unfold rejoin, replace. cbn [replace_from startswith length Nat.sub app].
  replace (startswith r []) with true by (destruct r; reflexivity).
  rewrite (N.eqb_sym HYPHEN c), (N.eqb_sym LF d), andb_true_r.
  destruct ((c =? HYPHEN) && (d =? LF)); reflexivity.
Qed.

(** An occurrence of ["-\n"] is removed whatever surrounds it. *)
Lemma rejoin_occurrence (a b : pystr) :
  rejoin (a ++ [HYPHEN; LF] ++ b) = rejoin a ++ rejoin b.
Proof.
  induction a as [|c|c d r IHr IHd] using list_ind2.
  - simpl. rewrite rejoin_cons2. reflexivity.
  - simpl. rewrite rejoin_cons2, rejoin_one.
    replace (HYPHEN =? LF) with false by reflexivity.
    rewrite andb_false_r. simpl.
    rewrite rejoin_cons2. reflexivity.
  - change ((c :: d :: r) ++ [HYPHEN; LF] ++ b)
      with (c :: d :: (r ++ [HYPHEN; LF] ++ b)).
    rewrite !rejoin_cons2.
    destruct ((c =? HYPHEN) && (d =? LF)).
    + exact IHr.
    + change (d :: r ++ [HYPHEN; LF] ++ b)
        with ((d :: r) ++ [HYPHEN; LF] ++ b).
      rewrite IHd. reflexivity.
Qed.

(** A text without ["-\n"] is left as it is. *)
Lemma rejoin_id (s : pystr) :
  ~ contains s [HYPHEN; LF] -> rejoin s = s.
Proof.
  induction s as [|c|c d r IHr IHd] using list_ind2; intros Hno.
  - reflexivity.
  - apply rejoin_one.
  - rewrite rejoin_cons2.
    destruct (N.eqb_spec c HYPHEN) as [-> | Hc];
      [destruct (N.eqb_spec d LF) as [-> | Hd] |]; simpl.
    + exfalso. apply Hno. exists [], r. reflexivity.
    + f_equal. apply IHd. intros (a & b & E). apply Hno.
      exists (HYPHEN :: a), b. simpl. rewrite E. reflexivity.
    + f_equal. apply IHd. intros (a & b & E). apply Hno.
      exists (c :: a), b. simpl. rewrite E. reflexivity.
Qed.

(** The first character of a rejoined text is the first character of the
    text, unless the text starts with ["-\n"]. *)
Lemma rejoin_head (s : pystr) (x : N) (t : pystr) :
  rejoin s = x :: t ->
  (exists r, s = x :: r) \/ (exists r, s = HYPHEN :: LF :: r).
Proof.
  destruct s as [|c [|d r]].
  - discriminate.
  - rewrite rejoin_one. intros [= -> <-]. left. eauto.
  - rewrite rejoin_cons2.
    destruct (N.eqb_spec c HYPHEN) as [-> | Hc];
      [destruct (N.eqb_spec d LF) as [-> | Hd] |]; simpl.
    + right. eauto.
    + intros [= <- _]. left. eauto.
    + intros [= <- _]. left. eauto.
Qed.

(** A ["-\n"] in the rejoined text comes from a ["--\n"] in the raw text. *)
Lemma rejoin_leftover (raw : pystr) :
  contains (rejoin raw) [HYPHEN; LF] -> contains raw [HYPHEN; HYPHEN; LF].
Proof.
  induction raw as [|c|c d r IHr IHd] using list_ind2.
  - intros (a & b & E). destruct a; discriminate.
  - rewrite rejoin_one. intros (a & b & E).
    destruct a as [|? [|? ?]]; discriminate.
  - rewrite rejoin_cons2.
    destruct (N.eqb_spec c HYPHEN) as [-> | Hc];
      [destruct (N.eqb_spec d LF) as [-> | Hd] |]; simpl.
    + intros H. destruct (IHr H) as (a & b & E).
      exists (HYPHEN :: LF :: a), b. simpl. rewrite E. reflexivity.
    + intros (a & b & E). destruct a as [|x a].
      * simpl in E. injection E as E.
        destruct (rejoin_head _ _ _ E) as [[r' [= -> ->]] | [r' [= -> ->]]].
        -- congruence.
        -- exists [], r'. reflexivity.
      * simpl in E. injection E as _ E.
        destruct IHd as (a' & b' & E'); [exists a, b; exact E|].
        exists (HYPHEN :: a'), b'. simpl. rewrite E'. reflexivity.
    + intros (a & b & E). destruct a as [|x a].
      * simpl in E. injection E as E _. congruence.
      * simpl in E. injection E as _ E.
        destruct IHd as (a' & b' & E'); [exists a, b; exact E|].
        exists (c :: a'), b'. simpl. rewrite E'. reflexivity.
Qed.

(** ** The page splitter *)

Lemma feed_app (s : TikaXHTMLParser) (a b : list event) :
  feed s (a ++ b) = feed (feed s a) b.
Proof. unfold feed. apply fold_left_app. Qed.

Lemma feed_nil (s : TikaXHTMLParser) : feed s [] = s.
Proof. reflexivity. Qed.

Lemma feed_cons (s : TikaXHTMLParser) (e : event) (a : list event) :
  feed s (e :: a) = feed (handle s e) a.
Proof. reflexivity. Qed.

(** While the parser is not ingesting, only a page start changes its state. *)
Lemma handle_idle (s : TikaXHTMLParser) (e : event) :
  ingest s = false -> is_page_start e = false -> handle s e = s.
Proof.
  intros Hs He. destruct e as [tag attrs|tag|d]; simpl in *.
  - unfold handle_starttag. rewrite He. reflexivity.
  - unfold handle_endtag. rewrite Hs, andb_false_r. reflexivity.
  - unfold handle_data. rewrite Hs. reflexivity.
Qed.

Lemma feed_idle (s : TikaXHTMLParser) (markup : list event) :
  ingest s = false ->
  forallb (fun e => negb (is_page_start e)) markup = true ->
  feed s markup = s.
Proof.
  intros Hs. induction markup as [|e markup IH]; cbn [forallb];
    [reflexivity|].
  rewrite andb_true_iff, negb_true_iff. intros [He Hm].
  rewrite feed_cons, handle_idle by assumption. apply IH, Hm.
Qed.

(** A page start switches ingesting on and touches nothing else. *)
Lemma handle_page_start (s : TikaXHTMLParser) (e : event) :
  is_page_start e = true ->
  handle s e = {| ingest := true; page := page s; pages := pages s |}.
Proof.
  destruct e as [tag attrs|tag|d]; simpl; try discriminate.
  intros He. unfold handle_starttag. rewrite He. reflexivity.
Qed.

(** A div or body close met while ingesting flushes the page. *)
Lemma handle_flush (s : TikaXHTMLParser) (e : event) :
  ingest s = true -> is_flush_tag e = true ->
  handle s e = {| ingest := false; page := [];
                  pages := pages s ++ [rejoin (page s)] |}.
Proof.
  destruct e as [tag attrs|tag|d]; simpl; try discriminate.
  intros Hs He. unfold handle_endtag. rewrite He, Hs. reflexivity.
Qed.

(** While the parser is ingesting and no div or body closes, character data
    accumulates and no page is flushed. *)
Lemma handle_ingesting (s : TikaXHTMLParser) (e : event) :
  ingest s = true -> is_flush_tag e = false ->
  handle s e = {| ingest := true; page := page s ++ text_of [e];
                  pages := pages s |}.
Proof.
  intros Hs He. destruct s as [i p ps]. simpl in Hs. subst i.
  destruct e as [tag attrs|tag|d]; simpl in *.
  - unfold handle_starttag. rewrite app_nil_r.
    destruct (str_eqb tag (py "div") && truthy (pagediv attrs)); reflexivity.
  - unfold handle_endtag. rewrite He, app_nil_r. reflexivity.
  - unfold handle_data. simpl. rewrite app_nil_r. reflexivity.
Qed.

Lemma text_of_app (a b : list event) :
  text_of (a ++ b) = text_of a ++ text_of b.
Proof.
  induction a as [|[tag attrs|tag|d] a IH]; simpl; auto.
  rewrite IH, app_assoc. reflexivity.
Qed.

Lemma feed_ingesting (s : TikaXHTMLParser) (markup : list event) :
  ingest s = true ->
  forallb (fun e => negb (is_flush_tag e)) markup = true ->
  feed s markup = {| ingest := true; page := page s ++ text_of markup;
                     pages := pages s |}.
Proof.
  revert s. induction markup as [|e markup IH]; intros s Hs; cbn [forallb].
  - intros _. destruct s as [i p ps]. simpl in *. subst.
    rewrite app_nil_r. reflexivity.
  - rewrite andb_true_iff, negb_true_iff. intros [He Hm].
    rewrite feed_cons, (handle_ingesting s e Hs He), IH by (auto; reflexivity).
    cbn [page pages]. change (e :: markup) with ([e] ++ markup).
    rewrite text_of_app, app_assoc. reflexivity.
Qed.

Lemma flat_block_parts (b : page_block) :
  flat_block b = true ->
  is_page_start (starttag (py "div") (block_attrs b)) = true
  /\ forallb (fun e => negb (is_page_start e)) (gap b) = true
  /\ forallb (fun e => negb (is_flush_tag e)) (gap b) = true
  /\ forallb (fun e => negb (is_flush_tag e)) (inner b) = true.
Proof.
  unfold flat_block. rewrite !andb_true_iff. intros [[Ha Hg] Hi].
  rewrite forallb_forall in Hg.
  repeat split; auto.
  - apply forallb_forall. intros e He.
    specialize (Hg e He). apply andb_true_iff in Hg. tauto.
  - apply forallb_forall. intros e He.
    specialize (Hg e He). apply andb_true_iff in Hg. tauto.
Qed.

(** A page container met while ingesting: the pending text, the gap and the
    inside of the container make one page. *)
Lemma feed_container_ingesting (s : TikaXHTMLParser) (b : page_block) :
  ingest s = true -> flat_block b = true ->
  feed s (page_container b) =
  {| ingest := false; page := [];
     pages := pages s
              ++ [rejoin (page s ++ text_of (gap b) ++ text_of (inner b))] |}.
Proof.
  intros Hs Hb. destruct (flat_block_parts b Hb) as (Ha & _ & Hg & Hi).
  unfold page_container.
  rewrite feed_app, (feed_ingesting s (gap b) Hs Hg), feed_cons.
  rewrite (handle_page_start _ _ Ha). cbn [ingest page pages].
  rewrite feed_app, (feed_ingesting _ (inner b))
    by first [reflexivity | exact Hi].
  cbn [ingest page pages]. rewrite feed_cons, feed_nil.
  rewrite (handle_flush _ (endtag (py "div"))) by reflexivity.
  cbn [ingest page pages]. rewrite <- app_assoc. reflexivity.
Qed.

(** A page container met after a flush: the gap is lost and the inside of
    the container makes one page. *)
Lemma feed_container_idle (s : TikaXHTMLParser) (b : page_block) :
  ingest s = false -> page s = [] -> flat_block b = true ->
  feed s (page_container b) =
  {| ingest := false; page := [];
     pages := pages s ++ [rejoin (text_of (inner b))] |}.
Proof.
  intros Hs Hp Hb. destruct (flat_block_parts b Hb) as (Ha & Hg & _ & Hi).
  unfold page_container.
  rewrite feed_app, (feed_idle s (gap b) Hs Hg), feed_cons.
  rewrite (handle_page_start _ _ Ha).
  rewrite feed_app, (feed_ingesting _ (inner b))
    by first [reflexivity | exact Hi].
  cbn [ingest page pages]. rewrite feed_cons, feed_nil.
  rewrite (handle_flush _ (endtag (py "div"))) by reflexivity.
  cbn [ingest page pages]. rewrite Hp. reflexivity.
Qed.

Lemma feed_containers_idle (s : TikaXHTMLParser) (bs : list page_block) :
  ingest s = false -> page s = [] -> forallb flat_block bs = true ->
  feed s (flat_map page_container bs) =
  {| ingest := false; page := [];
     pages := pages s ++ map (fun b => rejoin (text_of (inner b))) bs |}.
Proof.
  revert s. induction bs as [|b bs IH]; intros s Hs Hp;
    cbn [forallb flat_map map].
  - intros _. destruct s as [i p ps]. simpl in *. subst.
    rewrite app_nil_r. reflexivity.
  - rewrite andb_true_iff. intros [Hb Hbs].
    rewrite feed_app, (feed_container_idle s b Hs Hp Hb).
    rewrite IH by first [reflexivity | exact Hbs].
    cbn [ingest page pages]. rewrite <- app_assoc. reflexivity.
Qed.






(** The splitter's pages are the raw page texts, each rejoined. *)
Lemma feed_raw_related (markup : list event) (s r : TikaXHTMLParser) :
  ingest s = ingest r -> page s = page r ->
  pages s = map rejoin (pages r) ->
  pages (fold_left handle markup s)
  = map rejoin (pages (fold_left handle_raw markup r)).
Proof.
  revert s r. induction markup as [|e markup IH]; intros s r Hi Hp Hps.
  - exact Hps.
  - destruct s as [i p ps], r as [i' p' ps']. cbn [ingest page pages] in *.
    subst i' p' ps. cbn [fold_left].
    destruct e as [tag attrs|tag|d]; cbn [handle handle_raw].
    + apply IH; unfold handle_starttag;
        destruct (str_eqb tag (py "div") && truthy (pagediv attrs));
        reflexivity.
    + unfold handle_endtag. cbn [ingest page pages].
      destruct ((str_eqb tag (py "div") || str_eqb tag (py "body")) && i);
        apply IH; cbn [ingest page pages]; try reflexivity.
      rewrite map_app. reflexivity.
    + apply IH; unfold handle_data; cbn [ingest page pages];
        destruct i; reflexivity.
Qed.

Lemma pages_rejoin_raw (markup : list event) :
  pages (feed parser_init markup) = map rejoin (raw_pages markup).
Proof. apply feed_raw_related; reflexivity. Qed.

(** C7 (as stated) fails: the raw page text ["--\n\n"] is flushed as
    ["-\n"].  The one occurrence of ["-\n"] is removed, and the characters
    around it form a new one. *)
Lemma C7_counterexample :
  raw_pages ex_dashes = [[HYPHEN; HYPHEN; LF; LF]]
  /\ pages (feed parser_init ex_dashes) = [[HYPHEN; LF]]
  /\ contains [HYPHEN; LF] [HYPHEN; LF].
Proof.
  split; [reflexivity | split; [reflexivity |]].
  exists [], []. reflexivity.
Qed.

(** C7 (amended): the i-th output page is the i-th raw page text with every
    occurrence of ["-\n"] removed in one pass from left to right; a text
    without ["-\n"] is unchanged; and the output page contains no ["-\n"]
    whenever the raw text contains no ["--\n"]. *)
Theorem C7_hyphen_newline_removed (markup : list event) (i : nat)
    (raw : pystr) :
  nth_error (raw_pages markup) i = Some raw ->
  nth_error (pages (feed parser_init markup)) i = Some (rejoin raw)
  /\ (forall a b, raw = a ++ [HYPHEN; LF] ++ b ->
                  rejoin raw = rejoin a ++ rejoin b)
  /\ (~ contains raw [HYPHEN; LF] -> rejoin raw = raw)
  /\ (~ contains raw [HYPHEN; HYPHEN; LF] ->
      ~ contains (rejoin raw) [HYPHEN; LF]).
Proof.
  intros Hraw. repeat split.
  - rewrite pages_rejoin_raw. apply map_nth_error, Hraw.
  - intros a b ->. apply rejoin_occurrence.
  - apply rejoin_id.
  - intros Hno Hc. apply Hno, rejoin_leftover, Hc.
Qed.

Lemma C7_hyphen_newline_removed_witness :
  nth_error (pages (feed parser_init ex_wrapped)) 0 = Some (py "wrapped").
Proof.
  exact (proj1 (C7_hyphen_newline_removed ex_wrapped 0
                  (py "wrap-" ++ [LF] ++ py "ped") eq_refl)).
Defined.

(** C9 (as stated) fails: markup cut before its body close still yields
    the pages flushed by its div closes. *)
Lemma C9_counterexample :
  forallb (fun e => negb (is_body_close e)) ex_unclosed = true
  /\ pages (feed parser_init ex_unclosed) = [py "a"]
  /\ pages (feed parser_init ex_unclosed) <> [].
Proof. split; [reflexivity | split; [reflexivity | discriminate]]. Qed.

(** The guard of [handle_starttag] holds exactly for the attribute lists
    that give [class] the value ["page"]. *)
Lemma pagediv_truthy_iff (attrs : attrs_t) :
  truthy (pagediv attrs) = true
  <-> In (py "class", Some (py "page")) attrs.
Proof.
  unfold pagediv. induction attrs as [|[a v] attrs IH]; cbn [List.filter].
  - split; [discriminate | intros []].
  - cbn [fst snd].
    destruct (str_eqb a (py "class") && opt_str_eqb v (py "page")) eqn:E.
    + cbn [map truthy]. split; [intros _ | reflexivity].
      apply andb_true_iff in E. destruct E as [Ea Ev].
      apply str_eqb_eq in Ea. destruct v as [v|]; [|discriminate Ev].
      apply str_eqb_eq in Ev. subst. left. reflexivity.
    + rewrite IH. split; [intros H; right; exact H|].
      intros [[= -> ->]|H]; [|exact H].
      cbn [opt_str_eqb] in E.
      rewrite (proj2 (str_eqb_eq (py "class") (py "class")) eq_refl) in E.
      rewrite (proj2 (str_eqb_eq (py "page") (py "page")) eq_refl) in E.
      discriminate E.
Qed.

Lemma is_page_start_iff (e : event) :
  is_page_start e = true <-> page_div_start e.
Proof.
  destruct e as [tag attrs|tag|d]; cbn [is_page_start].
  - rewrite andb_true_iff, str_eqb_eq, pagediv_truthy_iff. split.
    + intros [-> H]. exists attrs. auto.
    + intros (a & [= -> ->] & H). auto.
  - split; [discriminate | intros (a & E & _); discriminate E].
  - split; [discriminate | intros (a & E & _); discriminate E].
Qed.

Lemma not_page_div_start (e : event) :
  ~ page_div_start e -> is_page_start e = false.
Proof.
  intros H. apply not_true_iff_false. intros E. apply H, is_page_start_iff, E.
Qed.

Lemma no_page_div_start (markup : list event) :
  Forall (fun e => ~ page_div_start e) markup ->
  forallb (fun e => negb (is_page_start e)) markup = true.
Proof.
  induction 1 as [|e markup He _ IH]; [reflexivity|].
  cbn [forallb]. rewrite (not_page_div_start e He), IH. reflexivity.
Qed.

(** C10: after a div or body close has flushed a page the parser is idle,
    with ingest false and an empty accumulator.  From then on every
    character-data event is discarded, and so is every other event that is
    not the start tag of a div element carrying class ["page"]: markup
    without such a start tag leaves the idle parser unchanged, so its text
    appears in no page and the run continues as if that markup were absent.
    The start tag of a div carrying class ["page"], and no other event, sets
    ingest back to true. *)
Theorem C10_idle_until_page_start (s : TikaXHTMLParser) (e : event)
    (between rest : list event) :
  ingest s = true ->
  e = endtag (py "div") \/ e = endtag (py "body") ->
  Forall (fun e' => ~ page_div_start e') between ->
  let idle := handle s e in
  idle = {| ingest := false; page := [];
            pages := pages s ++ [rejoin (page s)] |}
  /\ (forall d, handle idle (data d) = idle)
  /\ feed idle between = idle
  /\ feed s (e :: between ++ rest) = feed s (e :: rest)
  /\ (forall e', page_div_start e' ->
                 handle (feed idle between) e'
                 = {| ingest := true; page := []; pages := pages idle |})
  /\ (forall e', ~ page_div_start e' ->
                 handle (feed idle between) e' = idle).
Proof.
  intros Hs He Hb idle.
  assert (Hflush : is_flush_tag e = true)
    by (destruct He as [-> | ->]; reflexivity).
  assert (Hidle : idle = {| ingest := false; page := [];
                            pages := pages s ++ [rejoin (page s)] |})
    by (apply handle_flush; assumption).
  assert (Hi : ingest idle = false) by (rewrite Hidle; reflexivity).
  assert (Hf : feed idle between = idle)
    by (apply feed_idle; [exact Hi | apply no_page_div_start, Hb]).
  split; [exact Hidle|].
  split; [intros d; apply handle_idle; [exact Hi | reflexivity]|].
  split; [exact Hf|].
  split; [rewrite !feed_cons, feed_app; fold idle; rewrite Hf; reflexivity|].
  split.
  - intros e' He'. rewrite Hf, handle_page_start
      by (apply is_page_start_iff, He').
    rewrite Hidle. reflexivity.
  - intros e' He'. rewrite Hf. apply handle_idle;
      [exact Hi | apply not_page_div_start, He'].
Qed.

Lemma C10_idle_until_page_start_witness :
  feed parser_init
    (endtag (py "div")
     :: ex_between
     ++ [starttag (py "div") class_page; data (py "b"); endtag (py "div")])
  = feed parser_init
      [endtag (py "div");
       starttag (py "div") class_page; data (py "b"); endtag (py "div")]
  /\ ingest (handle (feed (handle parser_init (endtag (py "div")))
                        ex_between)
                (starttag (py "div") class_page)) = true.
Proof.
  assert (Hb : Forall (fun e' => ~ page_div_start e') ex_between).
  { unfold ex_between.
    repeat (constructor; [intros (attrs & E & HIn)|]);
      [apply (f_equal (fun e' => match e' with
                                 | starttag t a => (t, a)
                                 | _ => ([], [])
                                 end)) in E;
       vm_compute in E; try discriminate E; injection E as <-;
       vm_compute in HIn; intuition discriminate .. | constructor]. }
  destruct (C10_idle_until_page_start parser_init (endtag (py "div"))
              ex_between
              [starttag (py "div") class_page; data (py "b");
               endtag (py "div")]
              eq_refl (or_introl eq_refl) Hb)
    as (_ & _ & _ & Hskip & Hopen & _).
  split; [exact Hskip|].
  rewrite (Hopen (starttag (py "div") class_page)); [reflexivity|].
  exists class_page. split; [reflexivity | left; reflexivity].
Defined.

(** ** The filter loops *)

Section Loops.

Variable isdigit : N -> bool.

Lemma clean_lines_spec (file_path : pystr) (flag : bool)
    (lines cleaned : list pystr) (log : list log_record) :
  clean_lines isdigit file_path flag lines cleaned log =
  (cleaned ++ List.filter (fun l => negb (flag && numeric_row isdigit l)) lines,
   log ++ map (fun l => debug_removing_line l file_path)
              (List.filter (fun l => flag && numeric_row isdigit l) lines)).
Proof.
  revert cleaned log. induction lines as [|line rest IH]; intros cleaned log.
  - simpl. rewrite !app_nil_r. reflexivity.
  - cbn [clean_lines List.filter].
    destruct (flag && numeric_row isdigit line); cbn [negb map].
    + rewrite IH, <- app_assoc. reflexivity.
    + rewrite IH, <- app_assoc. reflexivity.
Qed.

Lemma clean_page_kept (flag : bool) (page : pystr) :
  clean_page isdigit flag page = join [LF] (kept_lines isdigit flag page).
Proof.
  unfold clean_page, kept_lines. rewrite clean_lines_spec. reflexivity.
Qed.

Lemma clean_pages_spec (file_path : pystr) (flag : bool)
    (pgs cleaned : list pystr) (log : list log_record) :
  clean_pages isdigit file_path flag pgs cleaned log =
  (cleaned ++ map (clean_page isdigit flag) pgs,
   log ++ removal_log isdigit file_path flag pgs).
Proof.
  revert cleaned log. induction pgs as [|pg rest IH]; intros cleaned log.
  - simpl. rewrite !app_nil_r. reflexivity.
  - cbn [clean_pages]. rewrite clean_lines_spec. cbn [app].
    rewrite IH. cbn [map]. rewrite clean_page_kept.
    unfold kept_lines, removal_log. cbn [flat_map].
    rewrite <- !app_assoc. reflexivity.
Qed.

(** [convert] in one equation: one document, whose text is the cleaned
    pages joined with ["\f"], and the log records in the order written. *)
Lemma convert_spec (validate_language : pystr -> list pystr -> bool)
    (self : TikaConverter) (parsed : Parsed) (file_path : pystr)
    (caller_meta : option (gmap pystr pystr)) (flag : option bool)
    (langs : option (list pystr)) (encoding : option pystr)
    (keys : option (list pystr)) :
  convert isdigit validate_language self parsed file_path caller_meta flag
    langs encoding keys =
  ([ {| content := join [FF] (cleaned_pages_of isdigit self flag parsed);
        meta := dict_unpack (parsed_metadata parsed) (or_empty caller_meta);
        id_hash_keys := match keys with
                        | None => self_id_hash_keys self
                        | Some l => Some l
                        end |} ],
   removal_log isdigit file_path
     (or_default flag (self_remove_numeric_tables self))
     (pages (feed parser_init (parsed_content parsed)))
   ++ match effective_languages self langs with
      | Some (l :: ls) =>
          if validate_language
               (join [] (cleaned_pages_of isdigit self flag parsed)) (l :: ls)
          then []
          else [warning_language file_path (l :: ls)]
      | _ => []
      end).
Proof.
  unfold convert, cleaned_pages_of, effective_languages.
  rewrite clean_pages_spec. cbn [app].
  destruct (match langs with
            | Some l => Some l
            | None => self_valid_languages self
            end) as [[|l ls]|]; rewrite ?app_nil_r; try reflexivity.
  destruct (validate_language _ _); cbn [negb]; rewrite ?app_nil_r;
    reflexivity.
Qed.

End Loops.

(** ** Lines *)

Lemma startswith_nil (s : pystr) : startswith s [] = true.
Proof. destruct s; reflexivity. Qed.

Lemma endswith_snoc (s : pystr) (c x : N) :
  endswith (s ++ [c]) [x] = (x =? c).
Proof.
  unfold endswith. rewrite rev_app_distr. cbn [rev app startswith].
  rewrite startswith_nil, andb_true_r. reflexivity.
Qed.

Lemma endswith_nil (x : N) : endswith [] [x] = false.
Proof. reflexivity. Qed.

Lemma endswith_cons (c : N) (s : pystr) (x : N) :
  s <> [] -> endswith (c :: s) [x] = endswith s [x].
Proof.
  intros Hs. destruct (exists_last Hs) as (s' & z & ->).
  change (c :: s' ++ [z]) with ((c :: s') ++ [z]).
  rewrite !endswith_snoc. reflexivity.
Qed.

Lemma endswith_app (a s : pystr) (x : N) :
  s <> [] -> endswith (a ++ s) [x] = endswith s [x].
Proof.
  intros Hs. induction a as [|c a IH]; [reflexivity|].
  cbn [app]. rewrite endswith_cons; [exact IH|].
  destruct a; [exact Hs | discriminate].
Qed.

(** A line does not end with a newline. *)
Lemma is_line_endswith (l : pystr) :
  is_line l = true -> endswith l [LF] = false.
Proof.
  intros Hl. destruct l as [|c l] using rev_ind; [reflexivity|].
  rewrite endswith_snoc. unfold is_line in Hl.
  rewrite forallb_app in Hl. cbn [forallb] in Hl.
  rewrite !andb_true_iff, negb_true_iff in Hl. destruct Hl as (_ & Hc & _).
  destruct (N.eqb_spec LF c) as [<-|]; [discriminate Hc | reflexivity].
Qed.

Lemma join_cons2 (sep x y : pystr) (l : list pystr) :
  join sep (x :: y :: l) = x ++ sep ++ join sep (y :: l).
Proof. reflexivity. Qed.

Lemma join_cons_first (c : N) (ls : list pystr) :
  join [LF] (cons_first c ls) = c :: join [LF] ls.
Proof. destruct ls as [|l [|l' ls]]; reflexivity. Qed.

Lemma join_nil_inv (ls : list pystr) :
  join [LF] ls = [] -> ls = [] \/ ls = [[]].
Proof.
  destruct ls as [|l [|l' ls]]; cbn [join].
  - auto.
  - intros ->. auto.
  - intros H. apply app_eq_nil in H. destruct H as [_ H]. discriminate H.
Qed.

Lemma splitlines_char (c : N) (rest : pystr) :
  islinebreak c = false ->
  splitlines (c :: rest) = cons_first c (splitlines rest).
Proof. intros Hc. cbn [splitlines]. rewrite Hc. reflexivity. Qed.

Lemma splitlines_LF (rest : pystr) :
  splitlines (LF :: rest) = [] :: splitlines rest.
Proof. destruct rest; reflexivity. Qed.

Lemma splitlines_nonempty (s : pystr) : s <> [] -> splitlines s <> [].
Proof.
  destruct s as [|c rest]; [congruence|]. intros _. cbn [splitlines].
  destruct (islinebreak c); [discriminate|].
  destruct (splitlines rest); discriminate.
Qed.

Lemma is_line_cons_first (c : N) (ls : list pystr) :
  islinebreak c = false -> forallb is_line ls = true ->
  forallb is_line (cons_first c ls) = true.
Proof.
  intros Hc Hls. destruct ls as [|l ls]; cbn [cons_first forallb] in *.
  - unfold is_line. cbn [forallb]. rewrite Hc. reflexivity.
  - apply andb_true_iff in Hls. destruct Hls as [Hl Hls].
    rewrite Hls, andb_true_r. unfold is_line in *. cbn [forallb].
    rewrite Hc, Hl. reflexivity.
Qed.

(** Every line of [splitlines] is free of line boundaries. *)
Lemma splitlines_lines (s : pystr) : forallb is_line (splitlines s) = true.
Proof.
  induction s as [|c|c d r IHr IHd] using list_ind2.
  - reflexivity.
  - cbn [splitlines]. destruct (islinebreak c) eqn:Hc; [reflexivity|].
    apply is_line_cons_first; [exact Hc | reflexivity].
  - destruct (islinebreak c) eqn:Hc.
    + cbn [splitlines]. rewrite Hc. cbn [forallb].
      destruct ((c =? CR) && (d =? LF)); [exact IHr | exact IHd].
    + rewrite splitlines_char by exact Hc.
      apply is_line_cons_first; [exact Hc | exact IHd].
Qed.

(** A line is its own only line, unless it is empty. *)
Lemma splitlines_line (l : pystr) :
  is_line l = true -> splitlines l = if truthy l then [l] else [].
Proof.
  induction l as [|c l IH]; [reflexivity|].
  unfold is_line. cbn [forallb]. rewrite andb_true_iff, negb_true_iff.
  intros [Hc Hl]. rewrite splitlines_char, (IH Hl) by exact Hc.
  destruct l; reflexivity.
Qed.

Lemma splitlines_line_LF (l rest : pystr) :
  is_line l = true -> splitlines (l ++ LF :: rest) = l :: splitlines rest.
Proof.
  induction l as [|c l IH]; [intros _; apply splitlines_LF|].
  unfold is_line. cbn [forallb]. rewrite andb_true_iff, negb_true_iff.
  intros [Hc Hl]. cbn [app]. rewrite splitlines_char, (IH Hl) by exact Hc.
  reflexivity.
Qed.

(** Splitting the joined lines gives the lines back, without a trailing
    empty line. *)
Lemma splitlines_join (ls : list pystr) :
  forallb is_line ls = true ->
  splitlines (join [LF] ls) = drop_trailing_empty ls.
Proof.
  induction ls as [|l ls IH]; [reflexivity|].
  cbn [forallb]. rewrite andb_true_iff. intros [Hl Hls].
  destruct ls as [|l' ls].
  - cbn [join drop_trailing_empty]. apply splitlines_line, Hl.
  - rewrite join_cons2. cbn [app].
    rewrite splitlines_line_LF, (IH Hls) by exact Hl. reflexivity.
Qed.

(** The joined lines hold no line boundary but the ["\n"] between them. *)
Lemma only_lf_breaks_join (ls : list pystr) :
  forallb is_line ls = true -> only_lf_breaks (join [LF] ls) = true.
Proof.
  assert (Hline : forall l, is_line l = true -> only_lf_breaks l = true).
  { intros l. unfold is_line, only_lf_breaks. rewrite !forallb_forall.
    intros H c Hc. rewrite (H c Hc). reflexivity. }
  induction ls as [|l ls IH]; [reflexivity|].
  cbn [forallb]. rewrite andb_true_iff. intros [Hl Hls].
  destruct ls as [|l' ls].
  - apply Hline, Hl.
  - rewrite join_cons2. unfold only_lf_breaks in *.
    rewrite forallb_app. cbn [app forallb].
    rewrite (Hline l Hl), (IH Hls). reflexivity.
Qed.

(** A text whose only line boundaries are ["\n"] and which does not end
    with one is the join of its lines. *)
Lemma join_splitlines_normal (s : pystr) :
  only_lf_breaks s = true -> endswith s [LF] = false ->
  join [LF] (splitlines s) = s.
Proof.
  induction s as [|c s IH]; [reflexivity|].
  unfold only_lf_breaks. cbn [forallb]. rewrite andb_true_iff.
  intros [Hc Hs] Hend.
  assert (Hend' : endswith s [LF] = false).
  { destruct s as [|d s']; [reflexivity|].
    rewrite endswith_cons in Hend by discriminate. exact Hend. }
  destruct (islinebreak c) eqn:Hb.
  - cbn [negb orb] in Hc. apply N.eqb_eq in Hc. subst c.
    rewrite splitlines_LF.
    destruct s as [|d s']; [discriminate Hend|].
    pose proof (splitlines_nonempty (d :: s') ltac:(discriminate)) as Hne.
    destruct (splitlines (d :: s')) as [|l ls] eqn:E; [congruence|].
    rewrite join_cons2. cbn [app]. rewrite (IH Hs Hend'). reflexivity.
  - rewrite splitlines_char, join_cons_first, (IH Hs Hend') by exact Hb.
    reflexivity.
Qed.

(** A text whose only line boundaries are ["\n"] and which ends with one
    loses that last ["\n"] when its lines are joined. *)
Lemma join_splitlines_trailing (s : pystr) :
  only_lf_breaks s = true -> endswith s [LF] = true ->
  join [LF] (splitlines s) ++ [LF] = s.
Proof.
  induction s as [|c s IH]; [discriminate|].
  unfold only_lf_breaks. cbn [forallb]. rewrite andb_true_iff.
  intros [Hc Hs] Hend.
  destruct s as [|d s'].
  - change (endswith [c] [LF]) with (endswith ([] ++ [c]) [LF]) in Hend.
    rewrite endswith_snoc in Hend. apply N.eqb_eq in Hend. subst c.
    reflexivity.
  - rewrite endswith_cons in Hend by discriminate.
    specialize (IH Hs Hend).
    destruct (islinebreak c) eqn:Hb.
    + cbn [negb orb] in Hc. apply N.eqb_eq in Hc. subst c.
      rewrite splitlines_LF.
      pose proof (splitlines_nonempty (d :: s') ltac:(discriminate)) as Hne.
      destruct (splitlines (d :: s')) as [|l ls] eqn:E; [congruence|].
      rewrite join_cons2. cbn [app]. rewrite IH. reflexivity.
    + rewrite splitlines_char, join_cons_first by exact Hb.
      cbn [app]. rewrite IH. reflexivity.
Qed.

(** The text is the join of its own lines exactly when its only line
    boundaries are ["\n"] and it does not end with one. *)
Lemma join_splitlines_fixed (s : pystr) :
  join [LF] (splitlines s) = s
  <-> only_lf_breaks s = true /\ endswith s [LF] = false.
Proof.
  split.
  - intros E.
    assert (Hlf : only_lf_breaks s = true).
    { rewrite <- E. apply only_lf_breaks_join, splitlines_lines. }
    split; [exact Hlf|].
    destruct (endswith s [LF]) eqn:Hend; [|reflexivity].
    pose proof (join_splitlines_trailing s Hlf Hend) as T.
    rewrite E in T. apply (f_equal (@length N)) in T.
    rewrite length_app in T. cbn [length] in T. lia.
  - intros [Hlf Hend]. apply join_splitlines_normal; assumption.
Qed.

(** ** The numeric-table filter *)

Lemma filter_all {A} (f : A -> bool) (l : list A) :
  forallb f l = true -> List.filter f l = l.
Proof.
  induction l as [|x l IH]; [reflexivity|].
  cbn [forallb List.filter]. rewrite andb_true_iff. intros [-> Hl].
  rewrite (IH Hl). reflexivity.
Qed.

Lemma filter_none {A} (f : A -> bool) (l : list A) :
  (forall x, f x = false) -> List.filter f l = [].
Proof.
  intros H. induction l as [|x l IH]; [reflexivity|].
  cbn [List.filter]. rewrite H. exact IH.
Qed.

Lemma forallb_filter_self {A} (f : A -> bool) (l : list A) :
  forallb f (List.filter f l) = true.
Proof.
  induction l as [|x l IH]; [reflexivity|].
  cbn [List.filter]. destruct (f x) eqn:E; [|exact IH].
  cbn [forallb]. rewrite E, IH. reflexivity.
Qed.

Lemma forallb_filter_other {A} (f g : A -> bool) (l : list A) :
  forallb g l = true -> forallb g (List.filter f l) = true.
Proof.
  induction l as [|x l IH]; [reflexivity|].
  cbn [forallb List.filter]. rewrite andb_true_iff. intros [Hx Hl].
  destruct (f x); [|exact (IH Hl)].
  cbn [forallb]. rewrite Hx, (IH Hl). reflexivity.
Qed.

Lemma forallb_drop_trailing_empty (f : pystr -> bool) (ls : list pystr) :
  forallb f ls = true -> forallb f (drop_trailing_empty ls) = true.
Proof.
  induction ls as [|l ls IH]; [reflexivity|].
  cbn [forallb]. rewrite andb_true_iff. intros [Hl Hls].
  destruct ls as [|l' ls].
  - cbn [drop_trailing_empty]. destruct (truthy l); [|reflexivity].
    cbn [forallb]. rewrite Hl. reflexivity.
  - change (drop_trailing_empty (l :: l' :: ls))
      with (l :: drop_trailing_empty (l' :: ls)).
    cbn [forallb]. rewrite Hl, (IH Hls). reflexivity.
Qed.

Lemma drop_trailing_empty_nil_inv (ls : list pystr) :
  drop_trailing_empty ls = [] -> ls = [] \/ ls = [[]].
Proof.
  destruct ls as [|l [|l' ls]]; cbn [drop_trailing_empty].
  - auto.
  - destruct l; [auto | discriminate].
  - discriminate.
Qed.

(** Joining after the trailing empty line is dropped either changes
    nothing, and then the join does not end with a newline, or removes the
    newline the join ends with. *)
Lemma join_drop_trailing_empty (ls : list pystr) :
  forallb is_line ls = true ->
  (endswith (join [LF] ls) [LF] = false
   /\ join [LF] (drop_trailing_empty ls) = join [LF] ls)
  \/ join [LF] ls = join [LF] (drop_trailing_empty ls) ++ [LF].
Proof.
  induction ls as [|l ls IH]; [left; split; reflexivity|].
  cbn [forallb]. rewrite andb_true_iff. intros [Hl Hls].
  destruct ls as [|l' ls].
  - left. cbn [join drop_trailing_empty].
    split; [apply is_line_endswith, Hl|].
    destruct l; reflexivity.
  - change (drop_trailing_empty (l :: l' :: ls))
      with (l :: drop_trailing_empty (l' :: ls)).
    rewrite join_cons2.
    destruct (drop_trailing_empty (l' :: ls)) as [|x xs] eqn:E.
    + right. destruct (drop_trailing_empty_nil_inv _ E) as [H|H];
        [discriminate H|]. injection H as -> ->.
      reflexivity.
    + destruct (IH Hls) as [[Hend Hj]|Hj].
      * left. rewrite join_cons2, Hj. split; [|reflexivity].
        assert (Hne : join [LF] (l' :: ls) <> []).
        { intros Hnil. destruct (join_nil_inv _ Hnil) as [H|H];
            [discriminate H|]. rewrite H in E. discriminate E. }
        rewrite endswith_app.
        -- cbn [app]. rewrite endswith_cons by exact Hne. exact Hend.
        -- discriminate.
      * right. rewrite join_cons2, Hj, !app_assoc. reflexivity.
Qed.

Section Filter.

Variable isdigit : N -> bool.

Lemma kept_lines_are_lines (flag : bool) (page : pystr) :
  forallb is_line (kept_lines isdigit flag page) = true.
Proof. apply forallb_filter_other, splitlines_lines. Qed.

(** With the flag off every line is kept. *)
Lemma kept_lines_flag_off (page : pystr) :
  kept_lines isdigit false page = splitlines page.
Proof.
  unfold kept_lines. apply filter_all, forallb_forall. reflexivity.
Qed.

(** Without numeric rows every line is kept. *)
Lemma kept_lines_no_noise (flag : bool) (page : pystr) :
  forallb (fun l => negb (numeric_row isdigit l)) (splitlines page) = true ->
  kept_lines isdigit flag page = splitlines page.
Proof.
  intros H. unfold kept_lines. apply filter_all.
  rewrite forallb_forall in *. intros l Hl. specialize (H l Hl).
  apply negb_true_iff in H. rewrite H, andb_false_r. reflexivity.
Qed.

(** Filtering a filtered page keeps all of its lines but a trailing empty
    one. *)
Lemma clean_page_twice (flag : bool) (page : pystr) :
  clean_page isdigit flag (clean_page isdigit flag page) =
  join [LF] (drop_trailing_empty (kept_lines isdigit flag page)).
Proof.
  rewrite (clean_page_kept isdigit flag (clean_page isdigit flag page)).
  rewrite (clean_page_kept isdigit flag page).
  unfold kept_lines at 1.
  rewrite splitlines_join by apply kept_lines_are_lines.
  rewrite filter_all; [reflexivity|].
  apply forallb_drop_trailing_empty. unfold kept_lines.
  apply forallb_filter_self.
Qed.

End Filter.

(** C2 (as stated) fails: with the flag off the page ["a\n"] is cleaned to
    ["a"].  No line is dropped, but the lines are joined again with ["\n"]
    and a line boundary that ends the page is not restored. *)
Lemma C2_counterexample :
  clean_page isdigit_ascii false ex_page_a = py "a"
  /\ clean_page isdigit_ascii false ex_page_a <> ex_page_a.
Proof. split; [reflexivity | discriminate]. Qed.

(** C2 (amended): with [remove_numeric_tables] false no line is dropped
    and nothing is logged, whatever the digit ratio: the cleaned page is the
    page's lines joined with ["\n"].  It equals the input page exactly when
    the page's only line boundaries are ["\n"] and the page does not end
    with one. *)
Theorem C2_flag_off_keeps_every_line (isdigit : N -> bool)
    (file_path page : pystr) (log : list log_record) :
  clean_lines isdigit file_path false (splitlines page) [] log
  = (splitlines page, log)
  /\ clean_page isdigit false page = join [LF] (splitlines page)
  /\ (clean_page isdigit false page = page
      <-> only_lf_breaks page = true /\ endswith page [LF] = false).
Proof.
  assert (E : clean_page isdigit false page = join [LF] (splitlines page))
    by (rewrite clean_page_kept, kept_lines_flag_off; reflexivity).
  split; [|split; [exact E|]].
  - rewrite clean_lines_spec. cbn [andb negb app].
    rewrite filter_all by (apply forallb_forall; reflexivity).
    rewrite filter_none by reflexivity. cbn [map]. rewrite app_nil_r.
    reflexivity.
  - rewrite E. apply join_splitlines_fixed.
Qed.

(** C8 (as stated) fails: the page ["a\n\n"] is filtered to ["a\n"], and
    ["a\n"] is filtered to ["a"]. *)
Lemma C8_counterexample :
  clean_page isdigit_ascii false ex_page_blank = ex_page_a
  /\ clean_page isdigit_ascii false
       (clean_page isdigit_ascii false ex_page_blank) = py "a"
  /\ clean_page isdigit_ascii false
       (clean_page isdigit_ascii false ex_page_blank)
     <> clean_page isdigit_ascii false ex_page_blank.
Proof. split; [reflexivity | split; [reflexivity | discriminate]]. Qed.

(** C8 (amended): for every page and flag, filtering twice gives the same
    page as filtering once exactly when the once-filtered page does not end
    with a newline; a second pass drops no further line but a trailing empty
    one. *)
Theorem C8_filter_idempotent_iff (isdigit : N -> bool) (flag : bool)
    (page : pystr) :
  (clean_page isdigit flag (clean_page isdigit flag page)
   = clean_page isdigit flag page
   <-> endswith (clean_page isdigit flag page) [LF] = false)
  /\ kept_lines isdigit flag (clean_page isdigit flag page)
     = drop_trailing_empty (kept_lines isdigit flag page).
Proof.
  split.
  - rewrite clean_page_twice, clean_page_kept.
    destruct (join_drop_trailing_empty (kept_lines isdigit flag page)
                (kept_lines_are_lines isdigit flag page)) as [[Hend Hj]|Hj].
    + split; auto.
    + split.
      * intros E. rewrite <- E in Hj at 1.
        apply (f_equal (@length N)) in Hj.
        rewrite length_app in Hj. cbn [length] in Hj. lia.
      * rewrite Hj, endswith_snoc. discriminate.
  - rewrite clean_page_kept. unfold kept_lines at 1.
    rewrite splitlines_join by apply kept_lines_are_lines.
    apply filter_all, forallb_drop_trailing_empty.
    unfold kept_lines. apply forallb_filter_self.
Qed.

Lemma endswith_one_iff (s : pystr) (x : N) :
  endswith s [x] = true <-> exists s', s = s' ++ [x].
Proof.
  destruct s as [|c s _] using rev_ind.
  - split; [discriminate|]. intros [s' E]. destruct s'; discriminate E.
  - rewrite endswith_snoc, N.eqb_eq. split.
    + intros ->. eauto.
    + intros [s' E]. apply app_inj_tail in E. symmetry. apply E.
Qed.

Lemma ratio_gt_04_iff (digits words : list pystr) :
  ratio_gt_04 digits words = true
  <-> (4 # 10 < inject_Z (Z.of_nat (length digits))
                / inject_Z (Z.of_nat (length words)))%Q.
Proof.
  unfold ratio_gt_04. rewrite negb_true_iff, <- not_true_iff_false.
  rewrite Qle_bool_iff. split; [apply Qnot_le_lt | apply Qlt_not_le].
Qed.

Lemma ratio_cross (d w : nat) :
  (0 < w)%nat ->
  (4 # 10 < inject_Z (Z.of_nat d) / inject_Z (Z.of_nat w))%Q
  <-> (2 * w < 5 * d)%nat.
Proof.
  intros Hw. destruct w as [|w]; [lia|].
  change (Z.of_nat (S w)) with (Z.pos (Pos.of_succ_nat w)).
  unfold Qlt, Qdiv, Qmult, Qinv, inject_Z. cbn [Qnum Qden].
  rewrite Pos2Z.inj_mul, Zpos_P_of_succ_nat. lia.
Qed.

(** C3: with [remove_numeric_tables] true the line loop keeps exactly the
    lines that are not numeric rows, and a line is a numeric row (is
    dropped) if and only if its word list is non-empty, more than 0.4 of its
    words hold a digit, and its stripped form does not end with a period; a
    line with no words is never dropped. *)
Theorem C3_line_dropped_iff (isdigit : N -> bool) (file_path : pystr)
    (lines : list pystr) (log : list log_record) (line : pystr) :
  fst (clean_lines isdigit file_path true lines [] log)
  = List.filter (fun l => negb (numeric_row isdigit l)) lines
  /\ (numeric_row isdigit line = true
      <-> split line <> []
          /\ (4 # 10 < digit_ratio isdigit line)%Q
          /\ ~ (exists s, strip line = s ++ [PERIOD]))
  /\ (split line = [] -> numeric_row isdigit line = false)
  /\ (split line <> [] ->
      ((4 # 10 < digit_ratio isdigit line)%Q
       <-> (2 * length (split line)
            < 5 * length (List.filter
                            (fun word => existsb isdigit word)
                            (split line)))%nat)).
Proof.
  split; [|split; [|split]].
  - rewrite clean_lines_spec. reflexivity.
  - unfold numeric_row, digit_ratio.
    rewrite !andb_true_iff, negb_true_iff, ratio_gt_04_iff.
    rewrite <- not_true_iff_false.
    change (py ".") with [PERIOD]. rewrite endswith_one_iff.
    destruct (split line) as [|w ws]; cbn [truthy].
    + split; [intros [[H _] _]; discriminate H | intros [H _]; congruence].
    + split.
      * intros [[_ H1] H2]. split; [discriminate | split; assumption].
      * intros (_ & H1 & H2). auto.
  - intros E. unfold numeric_row. rewrite E. reflexivity.
  - intros Hne. unfold digit_ratio. apply ratio_cross.
    destruct (split line); [congruence | cbn [length]; lia].
Qed.

Lemma C3_line_dropped_iff_witness :
  numeric_row isdigit_ascii (py "1 2 3 x") = true
  /\ numeric_row isdigit_ascii (py "1 2 3 x.") = false
  /\ numeric_row isdigit_ascii (py "   ") = false.
Proof.
  split; [|split].
  - apply (proj1 (proj2 (C3_line_dropped_iff isdigit_ascii [] [] []
                           (py "1 2 3 x")))).
    split; [discriminate | split; [reflexivity |]].
    intros H. apply endswith_one_iff in H. discriminate H.
  - apply not_true_iff_false. intros H.
    apply (proj1 (proj2 (C3_line_dropped_iff isdigit_ascii [] [] []
                           (py "1 2 3 x.")))) in H.
    destruct H as (_ & _ & H). apply H. exists (py "1 2 3 x"). reflexivity.
  - apply (proj1 (proj2 (proj2 (C3_line_dropped_iff isdigit_ascii [] [] []
                                  (py "   "))))).
    reflexivity.
Defined.

(** ** [convert] *)

(** C4: the returned list does not depend on the language validator: it
    always holds one document, with the same text.  When a non-empty
    allow-list is in effect and the validator rejects the text, the only
    record written besides the debug records of the filter is one warning;
    when the allow-list is unset or empty, no warning is written and the
    validator has no influence on the call at all. *)
Theorem C4_language_mismatch_only_warns (isdigit : N -> bool)
    (validate_language : pystr -> list pystr -> bool)
    (self : TikaConverter) (parsed : Parsed) (file_path : pystr)
    (caller_meta : option (gmap pystr pystr)) (flag : option bool)
    (langs : option (list pystr)) (encoding : option pystr)
    (keys : option (list pystr)) :
  let run v := convert isdigit v self parsed file_path caller_meta flag
                 langs encoding keys in
  let text := join [] (cleaned_pages_of isdigit self flag parsed) in
  let debug := removal_log isdigit file_path
                 (or_default flag (self_remove_numeric_tables self))
                 (pages (feed parser_init (parsed_content parsed))) in
  (forall v, fst (run v) = fst (run validate_language))
  /\ map content (fst (run validate_language))
     = [join [FF] (cleaned_pages_of isdigit self flag parsed)]
  /\ (forall l ls,
        effective_languages self langs = Some (l :: ls) ->
        validate_language text (l :: ls) = false ->
        snd (run validate_language)
        = debug ++ [warning_language file_path (l :: ls)])
  /\ (forall l ls,
        effective_languages self langs = Some (l :: ls) ->
        validate_language text (l :: ls) = true ->
        snd (run validate_language) = debug)
  /\ (effective_languages self langs = None
      \/ effective_languages self langs = Some [] ->
      snd (run validate_language) = debug
      /\ forall v, run v = run validate_language).
Proof.
  intros run text debug. subst run text debug. cbv beta.
  split; [|split; [|split; [|split]]].
  - intros v. rewrite !convert_spec. reflexivity.
  - rewrite convert_spec. reflexivity.
  - intros l ls E Hv. rewrite convert_spec, E, Hv. reflexivity.
  - intros l ls E Hv. rewrite convert_spec, E, Hv. apply app_nil_r.
  - intros [E|E]; (split; [|intros v]); rewrite !convert_spec, E;
      try apply app_nil_r; reflexivity.
Qed.

Lemma C4_language_mismatch_only_warns_witness :
  snd (convert isdigit_ascii reject_all ex_converter
         (ex_parsed ex_two_pages_trimmed) ex_path None None (Some ex_langs)
         None None)
  = [warning_language ex_path ex_langs]
  /\ map content
       (fst (convert isdigit_ascii reject_all ex_converter
               (ex_parsed ex_two_pages_trimmed) ex_path None None
               (Some ex_langs) None None))
     = [py "a" ++ [LF] ++ py "c" ++ [FF] ++ py "b"].
Proof.
  destruct (C4_language_mismatch_only_warns isdigit_ascii reject_all
              ex_converter (ex_parsed ex_two_pages_trimmed) ex_path None None
              (Some ex_langs) None None) as (_ & Hdoc & Hwarn & _).
  split.
  - exact (Hwarn (py "de") [py "fr"] eq_refl eq_refl).
  - exact Hdoc.
Defined.

(** C5: the metadata of the returned document holds, for every key, the
    caller's value when the caller gives one and the service's value
    otherwise, so its keys are the union of both key sets; service metadata
    [{"title": "A"}] with caller metadata [{"title": "B", "author": "C"}]
    gives [{"title": "B", "author": "C"}]. *)
Theorem C5_metadata_merge (isdigit : N -> bool)
    (validate_language : pystr -> list pystr -> bool)
    (self : TikaConverter) (parsed : Parsed) (file_path : pystr)
    (caller_meta : option (gmap pystr pystr)) (flag : option bool)
    (langs : option (list pystr)) (encoding : option pystr)
    (keys : option (list pystr)) :
  (exists m : gmap pystr pystr,
     map meta (fst (convert isdigit validate_language self parsed file_path
                      caller_meta flag langs encoding keys)) = [m]
     /\ (forall k : pystr,
           m !! k = match or_empty caller_meta !! k with
                    | Some v => Some v
                    | None => parsed_metadata parsed !! k
                    end)
     /\ dom m = dom (parsed_metadata parsed) ∪ dom (or_empty caller_meta))
  /\ map meta (fst (convert isdigit validate_language self
                      {| parsed_content := parsed_content parsed;
                         parsed_metadata := ex_service_meta |}
                      file_path (Some ex_caller_meta) flag langs encoding
                      keys))
     = [ex_caller_meta].
Proof.
  assert (Hlookup : forall (d1 d2 : gmap pystr pystr) (k : pystr),
             dict_unpack d1 d2 !! k = match d2 !! k with
                                      | Some v => Some v
                                      | None => d1 !! k
                                      end).
  { intros d1 d2 k. unfold dict_unpack, dict_update.
    rewrite (right_id_L ∅ (∪) d1), lookup_union.
    destruct (d2 !! k), (d1 !! k); reflexivity. }
  split.
  - eexists. rewrite convert_spec. cbn [fst map meta].
    split; [reflexivity | split].
    + intros k. apply Hlookup.
    + unfold dict_unpack, dict_update.
      rewrite (right_id_L ∅ (∪) (parsed_metadata parsed)), dom_union_L.
      apply (comm_L (∪)).
  - rewrite convert_spec. cbn [fst map meta parsed_metadata or_empty].
    reflexivity.
Qed.

(** C6 (as stated) fails: for two pages ["a\n"] and ["b\n"], which hold no
    numeric row, the text with the filter enabled is ["a\fb"] and not
    ["a\n\fb\n"].  The pages are joined with ["\f"] after each has been
    rebuilt from its lines. *)
Lemma C6_counterexample :
  pages (feed parser_init ex_two_pages) = [ex_page_a; ex_page_b]
  /\ forallb (fun l => negb (numeric_row isdigit_ascii l))
       (splitlines ex_page_a ++ splitlines ex_page_b) = true
  /\ map content
       (fst (convert isdigit_ascii reject_all ex_converter
               (ex_parsed ex_two_pages) ex_path None (Some true) None None
               None))
     = [py "a" ++ [FF] ++ py "b"]
  /\ py "a" ++ [FF] ++ py "b" <> ex_page_a ++ [FF] ++ ex_page_b.
Proof.
  split; [reflexivity | split; [reflexivity | split; [reflexivity |]]].
  discriminate.
Qed.

(** C6 (amended): the text of the returned document is the cleaned pages
    joined with ["\f"]; for a document of two pages it is the first cleaned
    page, ["\f"], the second cleaned page; and when neither page holds a
    numeric row, has a line boundary other than ["\n"] or ends with one, it
    is page0 + ["\f"] + page1. *)
Theorem C6_pages_joined_by_form_feed (isdigit : N -> bool)
    (validate_language : pystr -> list pystr -> bool)
    (self : TikaConverter) (parsed : Parsed) (file_path : pystr)
    (caller_meta : option (gmap pystr pystr)) (flag : option bool)
    (langs : option (list pystr)) (encoding : option pystr)
    (keys : option (list pystr)) :
  let text := map content
                (fst (convert isdigit validate_language self parsed file_path
                        caller_meta flag langs encoding keys)) in
  let clean := clean_page isdigit
                 (or_default flag (self_remove_numeric_tables self)) in
  text = [join [FF]
            (map clean (pages (feed parser_init (parsed_content parsed))))]
  /\ forall page0 page1 : pystr,
       pages (feed parser_init (parsed_content parsed)) = [page0; page1] ->
       text = [clean page0 ++ [FF] ++ clean page1]
       /\ (forallb (fun l => negb (numeric_row isdigit l))
             (splitlines page0 ++ splitlines page1) = true ->
           only_lf_breaks page0 = true -> endswith page0 [LF] = false ->
           only_lf_breaks page1 = true -> endswith page1 [LF] = false ->
           text = [page0 ++ [FF] ++ page1]).
Proof.
  intros text clean. subst text clean. cbv beta.
  rewrite convert_spec. cbn [fst map content]. unfold cleaned_pages_of.
  split; [reflexivity|].
  intros page0 page1 ->. cbn [map join]. split; [reflexivity|].
  rewrite forallb_app, andb_true_iff. intros [H0 H1] L0 E0 L1 E1.
  rewrite !clean_page_kept, !kept_lines_no_noise by assumption.
  rewrite !join_splitlines_normal by assumption. reflexivity.
Qed.

Lemma C6_pages_joined_by_form_feed_witness :
  map content
    (fst (convert isdigit_ascii reject_all ex_converter
            (ex_parsed ex_two_pages_trimmed) ex_path None (Some true) None
            None None))
  = [(py "a" ++ [LF] ++ py "c") ++ [FF] ++ py "b"].
Proof.
  exact (proj2 (proj2 (C6_pages_joined_by_form_feed isdigit_ascii reject_all
                         ex_converter (ex_parsed ex_two_pages_trimmed)
                         ex_path None (Some true) None None None)
                  (py "a" ++ [LF] ++ py "c") (py "b") eq_refl)
           eq_refl eq_refl eq_refl eq_refl eq_refl).
Defined.

(** Markup without a div or body close flushes nothing, whatever the
    state of the parser. *)
Lemma pages_unflushed (s : TikaXHTMLParser) (tail : list event) :
  forallb (fun e => negb (is_flush_tag e)) tail = true ->
  pages (feed s tail) = pages s.
Proof.
  revert s. induction tail as [|e tail IH]; intros s; [reflexivity|].
  cbn [forallb]. rewrite andb_true_iff, negb_true_iff. intros [He Ht].
  rewrite feed_cons, (IH _ Ht).
  destruct e as [tag attrs|tag|d]; cbn [handle is_flush_tag] in *.
  - unfold handle_starttag.
    destruct (str_eqb tag (py "div") && truthy (pagediv attrs)); reflexivity.
  - unfold handle_endtag. rewrite He. reflexivity.
  - unfold handle_data. destruct (ingest s); reflexivity.
Qed.

(** C9 (amended): the markup that follows the last div or body close
    reaches no page: the pages, and the text [convert] returns, are those of
    the markup up to that close.  Markup that closes neither its body nor
    any div therefore yields zero pages, its character data staying in the
    accumulator, and [convert] still returns one document, with an empty
    text. *)
Theorem C9_unflushed_text_dropped (isdigit : N -> bool)
    (validate_language : pystr -> list pystr -> bool)
    (self : TikaConverter) (metadata : gmap pystr pystr) (file_path : pystr)
    (caller_meta : option (gmap pystr pystr)) (flag : option bool)
    (langs : option (list pystr)) (encoding : option pystr)
    (keys : option (list pystr)) (markup tail : list event) :
  forallb (fun e => negb (is_flush_tag e)) tail = true ->
  let text m := map content
                  (fst (convert isdigit validate_language self
                          {| parsed_content := m;
                             parsed_metadata := metadata |}
                          file_path caller_meta flag langs encoding keys)) in
  pages (feed parser_init (markup ++ tail)) = pages (feed parser_init markup)
  /\ text (markup ++ tail) = text markup
  /\ feed parser_init tail
     = {| ingest := true; page := text_of tail; pages := [] |}
  /\ text tail = [[]].
Proof.
  intros Hno text. subst text. cbv beta.
  assert (E : feed parser_init tail
              = {| ingest := true; page := text_of tail; pages := [] |}).
  { rewrite (feed_ingesting parser_init _ eq_refl Hno). reflexivity. }
  assert (P : pages (feed parser_init (markup ++ tail))
              = pages (feed parser_init markup)).
  { rewrite feed_app. apply pages_unflushed, Hno. }
  split; [exact P | split; [|split; [exact E|]]].
  - rewrite !convert_spec. unfold cleaned_pages_of.
    cbn [parsed_content fst map content]. rewrite P. reflexivity.
  - rewrite convert_spec. unfold cleaned_pages_of.
    cbn [parsed_content]. rewrite E. reflexivity.
Qed.

Lemma C9_unflushed_text_dropped_witness :
  pages (feed parser_init (ex_unclosed ++ [data (py "b")])) = [py "a"]
  /\ feed parser_init ex_unclosed_flat
     = {| ingest := true; page := py "ab"; pages := [] |}
  /\ map content
       (fst (convert isdigit_ascii reject_all ex_converter
               (ex_parsed ex_unclosed_flat) ex_path None None None None
               None))
     = [[]].
Proof.
  split.
  - exact (proj1 (C9_unflushed_text_dropped isdigit_ascii reject_all
                    ex_converter ∅ ex_path None None None None None
                    ex_unclosed [data (py "b")] eq_refl)).
  - exact (proj2 (proj2 (C9_unflushed_text_dropped isdigit_ascii reject_all
                           ex_converter ∅ ex_path None None None None None
                           [] ex_unclosed_flat eq_refl))).
Defined.

(** * Further properties of the page splitter *)

(** X1: in every state the splitter reaches from its initial state, an idle
    parser has an empty accumulator and has flushed at least one page. *)
Theorem X1_idle_accumulator_empty (markup : list event) :
  ingest (feed parser_init markup) = false ->
  page (feed parser_init markup) = []
  /\ pages (feed parser_init markup) <> [].
Proof.
  assert (Inv : forall m s,
             (ingest s = false -> page s = [] /\ pages s <> []) ->
             ingest (feed s m) = false ->
             page (feed s m) = [] /\ pages (feed s m) <> []).
  { induction m as [|e m IH]; intros s Hs; [exact Hs|].
    rewrite feed_cons. apply IH.
    destruct e as [tag attrs|tag|d]; cbn [handle].
    - unfold handle_starttag.
      destruct (str_eqb tag (py "div") && truthy (pagediv attrs));
        [discriminate | exact Hs].
    - unfold handle_endtag.
      destruct ((str_eqb tag (py "div") || str_eqb tag (py "body"))
                && ingest s); [|exact Hs].
      intros _. cbn [page pages]. split; [reflexivity|].
      intros E. apply app_eq_nil in E. destruct E as [_ E]. discriminate E.
    - unfold handle_data. destruct (ingest s) eqn:Es.
      + cbn [ingest]. discriminate.
      + intros _. apply Hs. reflexivity. }
  apply Inv. discriminate.
Qed.

Lemma X1_idle_accumulator_empty_witness :
  page (feed parser_init ex_one_page) = []
  /\ pages (feed parser_init ex_one_page) <> [].
Proof. exact (X1_idle_accumulator_empty ex_one_page eq_refl). Defined.

Lemma pages_grow (markup : list event) (s : TikaXHTMLParser) :
  exists new, pages (feed s markup) = pages s ++ new.
Proof.
  revert s. induction markup as [|e markup IH]; intros s.
  - exists []. rewrite app_nil_r. reflexivity.
  - rewrite feed_cons. destruct (IH (handle s e)) as [new ->].
    destruct e as [tag attrs|tag|d]; cbn [handle].
    + unfold handle_starttag.
      destruct (str_eqb tag (py "div") && truthy (pagediv attrs)); eauto.
    + unfold handle_endtag.
      destruct ((str_eqb tag (py "div") || str_eqb tag (py "body"))
                && ingest s); [|eauto].
      cbn [pages]. rewrite <- app_assoc. eauto.
    + unfold handle_data. destruct (ingest s); eauto.
Qed.

(** X2: a page once flushed is never changed or removed: the pages after
    more markup has been fed start with the pages flushed before, in the same
    order. *)
Theorem X2_flushed_pages_kept (before after : list event) :
  exists new,
    pages (feed parser_init (before ++ after))
    = pages (feed parser_init before) ++ new.
Proof. rewrite feed_app. apply pages_grow. Qed.

(** X3: the splitter flushes at most one page per div or body close, and at
    most one page more than there are page starts. *)
Theorem X3_page_count_bounds (markup : list event) :
  (length (pages (feed parser_init markup))
   <= length (List.filter is_flush_tag markup))%nat
  /\ (length (pages (feed parser_init markup))
      <= 1 + length (List.filter is_page_start markup))%nat.
Proof.
  assert (Flush : forall m s,
             (length (pages (feed s m))
              <= length (pages s) + length (List.filter is_flush_tag m))%nat).
  { induction m as [|e m IH]; intros s; [cbn; lia|].
    rewrite feed_cons. specialize (IH (handle s e)).
    destruct e as [tag attrs|tag|d]; cbn [handle List.filter is_flush_tag]
      in *.
    - unfold handle_starttag in *.
      destruct (str_eqb tag (py "div") && truthy (pagediv attrs));
        cbn [pages] in IH; lia.
    - unfold handle_endtag in *.
      destruct (str_eqb tag (py "div") || str_eqb tag (py "body"));
        cbn [andb] in *.
      + destruct (ingest s); cbn [andb pages length] in *;
          rewrite ?length_app in IH; cbn [length] in *; lia.
      + lia.
    - unfold handle_data in *. destruct (ingest s); cbn [pages] in IH; lia. }
  assert (Start : forall m s,
             (length (pages (feed s m)) + ingesting (feed s m)
              <= length (pages s) + ingesting s
                 + length (List.filter is_page_start m))%nat).
  { induction m as [|e m IH]; intros s; [cbn [feed fold_left List.filter
                                                length]; lia|].
    rewrite feed_cons. specialize (IH (handle s e)).
    destruct e as [tag attrs|tag|d];
      cbn [handle List.filter is_page_start] in *.
    - unfold handle_starttag in *.
      destruct (str_eqb tag (py "div") && truthy (pagediv attrs));
        unfold ingesting in *; cbn [pages ingest length] in *.
      + destruct (ingest s); lia.
      + lia.
    - unfold handle_endtag in *.
      destruct ((str_eqb tag (py "div") || str_eqb tag (py "body"))
                && ingest s) eqn:E; [|lia].
      apply andb_true_iff in E. destruct E as [_ E].
      unfold ingesting in *. rewrite E. cbn [pages ingest] in IH.
      rewrite length_app in IH. cbn [length] in IH. lia.
    - unfold handle_data in *. unfold ingesting in *.
      destruct (ingest s) eqn:E; cbn [pages ingest] in IH;
        rewrite ?E in IH; lia. }
  split.
  - specialize (Flush markup parser_init). cbn [pages parser_init length]
      in Flush. lia.
  - specialize (Start markup parser_init).
    unfold ingesting in Start at 2. cbn [pages ingest parser_init length]
      in Start. lia.
Qed.

(** The hyphen rejoining only removes characters. *)
Lemma rejoin_sublist (s : pystr) : rejoin s `sublist_of` s.
Proof.
  induction s as [|c|c d r IHr IHd] using list_ind2.
  - reflexivity.
  - rewrite rejoin_one. reflexivity.
  - rewrite rejoin_cons2. destruct ((c =? HYPHEN) && (d =? LF)).
    + apply sublist_cons, sublist_cons, IHr.
    + apply sublist_skip, IHd.
Qed.

(** X4: the pages hold nothing but character data of the markup: the pages
    put end to end are a subsequence of the document's character data, so no
    character is invented, repeated or moved. *)
Theorem X4_pages_subsequence_of_text (markup : list event) :
  concat (pages (feed parser_init markup)) `sublist_of` text_of markup.
Proof.
  assert (Inv : forall m s seen,
             concat (pages s) ++ page s `sublist_of` seen ->
             concat (pages (feed s m)) ++ page (feed s m)
             `sublist_of` seen ++ text_of m).
  { induction m as [|e m IH]; intros s seen Hs.
    - cbn [text_of]. rewrite app_nil_r. exact Hs.
    - rewrite feed_cons.
      destruct e as [tag attrs|tag|d]; cbn [handle text_of].
      + apply IH. unfold handle_starttag.
        destruct (str_eqb tag (py "div") && truthy (pagediv attrs)); exact Hs.
      + apply IH. unfold handle_endtag.
        destruct ((str_eqb tag (py "div") || str_eqb tag (py "body"))
                  && ingest s); [|exact Hs].
        cbn [pages page]. rewrite concat_app. cbn [concat].
        rewrite !app_nil_r. etransitivity; [|exact Hs].
        apply sublist_app; [reflexivity | apply rejoin_sublist].
      + rewrite (app_assoc seen d). apply IH. unfold handle_data.
        destruct (ingest s).
        * cbn [pages page]. rewrite (app_assoc (concat (pages s))).
          apply sublist_app; [exact Hs | reflexivity].
        * apply sublist_inserts_r, Hs. }
  specialize (Inv markup parser_init [] (sublist_nil_l _)).
  etransitivity; [|exact Inv].
  apply sublist_inserts_r. reflexivity.
Qed.

(** X5: a div closed inside a page container ends the page there: the text
    up to the inner close makes the page, and what follows it in the
    container, up to and including the container's own close, reaches no
    page. *)
Theorem X5_inner_div_close_ends_page (s : TikaXHTMLParser) (attrs : attrs_t)
    (head lost rest : list event) :
  truthy (pagediv attrs) = true ->
  forallb (fun e => negb (is_flush_tag e)) head = true ->
  forallb (fun e => negb (is_page_start e)) lost = true ->
  feed s (starttag (py "div") attrs :: head ++ endtag (py "div")
          :: lost ++ endtag (py "div") :: rest)
  = feed {| ingest := false; page := [];
            pages := pages s ++ [rejoin (page s ++ text_of head)] |} rest.
Proof.
  intros Ha Hh Hl. rewrite feed_cons.
  rewrite (handle_page_start s (starttag (py "div") attrs))
    by (cbn [is_page_start]; rewrite Ha; reflexivity).
  rewrite feed_app, (feed_ingesting _ head) by first [reflexivity | exact Hh].
  cbn [ingest page pages]. rewrite feed_cons.
  rewrite (handle_flush _ (endtag (py "div"))) by reflexivity.
  cbn [ingest page pages].
  rewrite feed_app, (feed_idle _ lost) by first [reflexivity | exact Hl].
  rewrite feed_cons, handle_idle by reflexivity. reflexivity.
Qed.

Lemma X5_inner_div_close_ends_page_witness :
  pages (feed parser_init
           (starttag (py "div") class_page
            :: [data (py "a"); starttag (py "div") []; data (py "b")]
            ++ endtag (py "div")
            :: [data (py "c")] ++ endtag (py "div")
            :: [endtag (py "body")]))
  = [py "ab"].
Proof.
  rewrite (X5_inner_div_close_ends_page parser_init class_page
             [data (py "a"); starttag (py "div") []; data (py "b")]
             [data (py "c")] [endtag (py "body")] eq_refl eq_refl eq_refl).
  reflexivity.
Defined.

(** X6: the splitter reacts to character data, page starts and div or body
    closes only: every other tag can be removed from the markup without
    changing the result. *)
Theorem X6_other_tags_ignored (s : TikaXHTMLParser) (markup : list event) :
  feed s (List.filter is_relevant markup) = feed s markup.
Proof.
  revert s. induction markup as [|e markup IH]; intros s; [reflexivity|].
  cbn [List.filter]. destruct (is_relevant e) eqn:He.
  - rewrite !feed_cons. apply IH.
  - rewrite feed_cons, IH. f_equal.
    destruct e as [tag attrs|tag|d]; cbn [is_relevant is_page_start
                                            is_flush_tag orb] in He.
    + rewrite orb_false_r in He. cbn [handle]. unfold handle_starttag.
      rewrite He. reflexivity.
    + cbn [handle]. unfold handle_endtag. rewrite He. reflexivity.
    + discriminate He.
Qed.

(** X7: while the parser is ingesting, only the concatenated character data
    of a run without div or body close matters: two such runs with the same
    text lead to the same state, however the text is cut into data events
    and whatever tags lie between them. *)
Theorem X7_data_chunking_irrelevant (s : TikaXHTMLParser)
    (run1 run2 rest : list event) :
  ingest s = true ->
  forallb (fun e => negb (is_flush_tag e)) run1 = true ->
  forallb (fun e => negb (is_flush_tag e)) run2 = true ->
  text_of run1 = text_of run2 ->
  feed s (run1 ++ rest) = feed s (run2 ++ rest).
Proof.
  intros Hs H1 H2 E.
  rewrite !feed_app, (feed_ingesting s run1 Hs H1),
    (feed_ingesting s run2 Hs H2), E.
  reflexivity.
Qed.

Lemma X7_data_chunking_irrelevant_witness :
  pages (feed parser_init
           ([data (py "wrap-"); starttag (py "b") []; data (LF :: py "ped")]
            ++ [endtag (py "body")]))
  = [py "wrapped"].
Proof.
  rewrite (X7_data_chunking_irrelevant parser_init
             [data (py "wrap-"); starttag (py "b") []; data (LF :: py "ped")]
             [data (py "wrap-" ++ LF :: py "ped")]
             [endtag (py "body")] eq_refl eq_refl eq_refl eq_refl).
  reflexivity.
Defined.

(** X8: [handle_starttag] never touches the accumulator or the pages, and
    after it the parser is ingesting exactly when it was ingesting before or
    the tag is [div] and its attributes give [class] the value ["page"]; a
    valueless [class], another class value, ["page"] under another attribute
    or another tag never switches ingesting on. *)
Theorem X8_page_start_iff (s : TikaXHTMLParser) (tag : pystr)
    (attrs : attrs_t) :
  page (handle_starttag s tag attrs) = page s
  /\ pages (handle_starttag s tag attrs) = pages s
  /\ (ingest (handle_starttag s tag attrs) = true
      <-> ingest s = true
          \/ (tag = py "div" /\ In (py "class", Some (py "page")) attrs)).
Proof.
  unfold handle_starttag.
  destruct (str_eqb tag (py "div") && truthy (pagediv attrs)) eqn:E.
  - apply andb_true_iff in E. destruct E as [Et Ea].
    apply str_eqb_eq in Et. apply pagediv_truthy_iff in Ea.
    cbn [ingest page pages]. repeat split; auto.
  - repeat split; auto. intros [H | [Ht Ha]]; [exact H|].
    apply str_eqb_eq in Ht. apply pagediv_truthy_iff in Ha.
    rewrite Ht, Ha in E. discriminate E.
Qed.

Lemma rejoin_length_count (raw : pystr) :
  (length (rejoin raw) + 2 * count_occurrences raw [HYPHEN; LF]
   = length raw)%nat.
Proof.
  induction raw as [|c|c d r IHr IHd] using list_ind2.
  - reflexivity.
  - rewrite rejoin_one. cbn [count_occurrences startswith length].
    rewrite andb_false_r. reflexivity.
  - rewrite rejoin_cons2.
    change (count_occurrences (c :: d :: r) [HYPHEN; LF])
      with ((if startswith (c :: d :: r) [HYPHEN; LF] then 1 else 0)
            + count_occurrences (d :: r) [HYPHEN; LF])%nat.
    cbn [startswith]. rewrite startswith_nil, andb_true_r.
    rewrite (N.eqb_sym HYPHEN c), (N.eqb_sym LF d).
    destruct (N.eqb_spec c HYPHEN) as [->|Hc];
      [destruct (N.eqb_spec d LF) as [->|Hd]|]; cbn [andb length].
    + change (count_occurrences (LF :: r) [HYPHEN; LF])
        with (count_occurrences r [HYPHEN; LF]).
      lia.
    + cbn [length] in IHd. lia.
    + cbn [length] in IHd. lia.
Qed.

(** X9: the page a flush appends is shorter than the accumulated raw text
    by exactly two characters for each position at which ["-\n"] occurs in
    it: this holds for the page [handle_endtag] appends when a div or body
    closes while the parser is ingesting, and so for every page of a run, the
    i-th page against the i-th raw page text. *)
Theorem X9_rejoin_length (s : TikaXHTMLParser) (tag : pystr)
    (markup : list event) (i : nat) (raw : pystr) :
  (ingest s = true -> tag = py "div" \/ tag = py "body" ->
   exists out,
     handle_endtag s tag
     = {| ingest := false; page := []; pages := pages s ++ [out] |}
     /\ (length out + 2 * count_occurrences (page s) [HYPHEN; LF]
         = length (page s))%nat)
  /\ (nth_error (raw_pages markup) i = Some raw ->
      exists out,
        nth_error (pages (feed parser_init markup)) i = Some out
        /\ (length out + 2 * count_occurrences raw [HYPHEN; LF]
            = length raw)%nat).
Proof.
  split.
  - intros Hs Ht. exists (rejoin (page s)). split.
    + unfold handle_endtag. rewrite Hs.
      destruct Ht as [-> | ->]; reflexivity.
    + apply rejoin_length_count.
  - intros Hraw. exists (rejoin raw). split.
    + rewrite pages_rejoin_raw. apply map_nth_error, Hraw.
    + apply rejoin_length_count.
Qed.

Lemma X9_rejoin_length_witness :
  exists out,
    nth_error (pages (feed parser_init ex_wrapped)) 0 = Some out
    /\ (length out + 2 * 1 = 9)%nat.
Proof.
  exact (proj2 (X9_rejoin_length parser_init (py "div") ex_wrapped 0
                  (py "wrap-" ++ [LF] ++ py "ped"))
           eq_refl).
Defined.

(** * Further properties of [convert] *)

Lemma only_lf_breaks_not_FF (s : pystr) :
  only_lf_breaks s = true -> forallb not_FF s = true.
Proof.
  unfold only_lf_breaks. rewrite !forallb_forall. intros H c Hc.
  specialize (H c Hc). unfold not_FF.
  destruct (N.eqb_spec c FF) as [->|]; [discriminate H | reflexivity].
Qed.

(** X10: whatever line boundaries a page holds, the cleaned page holds no
    line boundary but ["\n"]: ["\r\n"], ["\r"], ["\f"] and the other
    boundaries of [splitlines] are all replaced or removed. *)
Theorem X10_cleaned_page_boundaries (isdigit : N -> bool) (flag : bool)
    (page : pystr) (c : N) :
  In c (clean_page isdigit flag page) -> islinebreak c = true -> c = LF.
Proof.
  intros Hc Hb.
  pose proof (only_lf_breaks_join _ (kept_lines_are_lines isdigit flag page))
    as H.
  rewrite <- clean_page_kept in H. unfold only_lf_breaks in H.
  rewrite forallb_forall in H. specialize (H c Hc).
  rewrite Hb in H. cbn [negb orb] in H. apply N.eqb_eq, H.
Qed.

Lemma X10_cleaned_page_boundaries_witness :
  clean_page isdigit_ascii true (py "a" ++ [CR; LF] ++ py "b" ++ [FF])
  = py "a" ++ [LF] ++ py "b"
  /\ LF = LF.
Proof.
  split; [reflexivity|].
  apply (X10_cleaned_page_boundaries isdigit_ascii true
           (py "a" ++ [CR; LF] ++ py "b" ++ [FF]) LF).
  - right. left. reflexivity.
  - reflexivity.
Defined.

Lemma clean_page_not_FF (isdigit : N -> bool) (flag : bool) (page : pystr) :
  forallb not_FF (clean_page isdigit flag page) = true.
Proof.
  apply only_lf_breaks_not_FF. rewrite clean_page_kept.
  apply only_lf_breaks_join, kept_lines_are_lines.
Qed.

Lemma split_char_piece (l : pystr) :
  forallb not_FF l = true -> split_char FF l = [l].
Proof.
  induction l as [|c l IH]; [reflexivity|].
  cbn [forallb split_char]. rewrite andb_true_iff. intros [Hc Hl].
  unfold not_FF in Hc. apply negb_true_iff in Hc.
  rewrite Hc, (IH Hl). reflexivity.
Qed.

Lemma split_char_app (l rest : pystr) :
  forallb not_FF l = true ->
  split_char FF (l ++ FF :: rest) = l :: split_char FF rest.
Proof.
  induction l as [|c l IH]; [reflexivity|].
  cbn [forallb app split_char]. rewrite andb_true_iff. intros [Hc Hl].
  unfold not_FF in Hc. apply negb_true_iff in Hc.
  rewrite Hc, (IH Hl). reflexivity.
Qed.

(** Pieces without ["\f"], joined with ["\f"], are found again by
    splitting at ["\f"]. *)
Lemma split_char_join (ps : list pystr) :
  forallb (forallb not_FF) ps = true ->
  split_char FF (join [FF] ps) = if truthy ps then ps else [[]].
Proof.
  induction ps as [|p ps IH]; [reflexivity|].
  cbn [forallb truthy]. rewrite andb_true_iff. intros [Hp Hps].
  destruct ps as [|q ps].
  - apply split_char_piece, Hp.
  - rewrite join_cons2. cbn [app]. rewrite split_char_app by exact Hp.
    rewrite (IH Hps). reflexivity.
Qed.

Lemma cleaned_pages_not_FF (isdigit : N -> bool) (self : TikaConverter)
    (flag : option bool) (parsed : Parsed) :
  forallb (forallb not_FF) (cleaned_pages_of isdigit self flag parsed) = true.
Proof.
  unfold cleaned_pages_of. apply forallb_forall. intros p Hp.
  apply in_map_iff in Hp. destruct Hp as (q & <- & _).
  apply clean_page_not_FF.
Qed.

(** X11: the pages can be read back from the document: splitting the
    returned text at ["\f"] gives exactly the cleaned pages, one piece per
    page the splitter flushed, even for pages the filter emptied; a document
    without pages gives the single empty piece. *)
Theorem X11_pages_recovered_by_split (isdigit : N -> bool)
    (validate_language : pystr -> list pystr -> bool)
    (self : TikaConverter) (parsed : Parsed) (file_path : pystr)
    (caller_meta : option (gmap pystr pystr)) (flag : option bool)
    (langs : option (list pystr)) (encoding : option pystr)
    (keys : option (list pystr)) :
  let cleaned := cleaned_pages_of isdigit self flag parsed in
  map (fun doc => split_char FF (content doc))
      (fst (convert isdigit validate_language self parsed file_path
              caller_meta flag langs encoding keys))
  = [if truthy cleaned then cleaned else [[]]]
  /\ length cleaned
     = length (pages (feed parser_init (parsed_content parsed))).
Proof.
  intros cleaned. subst cleaned. rewrite convert_spec. cbn [fst map content].
  split.
  - rewrite split_char_join by apply cleaned_pages_not_FF. reflexivity.
  - unfold cleaned_pages_of. apply length_map.
Qed.

Lemma filter_not_FF_join (ps : list pystr) :
  forallb (forallb not_FF) ps = true ->
  List.filter not_FF (join [FF] ps) = join [] ps.
Proof.
  induction ps as [|p ps IH]; [reflexivity|].
  cbn [forallb]. rewrite andb_true_iff. intros [Hp Hps].
  destruct ps as [|q ps].
  - apply filter_all, Hp.
  - rewrite !join_cons2. cbn [app]. rewrite List.filter_app.
    cbn [List.filter]. replace (not_FF FF) with false by reflexivity.
    rewrite (filter_all _ _ Hp), (IH Hps). reflexivity.
Qed.

(** X12: the text handed to the language validator is the returned text
    with the page separators taken out. *)
Theorem X12_validated_text (isdigit : N -> bool)
    (validate_language : pystr -> list pystr -> bool)
    (self : TikaConverter) (parsed : Parsed) (file_path : pystr)
    (caller_meta : option (gmap pystr pystr)) (flag : option bool)
    (langs : option (list pystr)) (encoding : option pystr)
    (keys : option (list pystr)) :
  let returned := join [FF] (cleaned_pages_of isdigit self flag parsed) in
  map content (fst (convert isdigit validate_language self parsed file_path
                      caller_meta flag langs encoding keys)) = [returned]
  /\ convert isdigit validate_language self parsed file_path caller_meta
       flag langs encoding keys
     = convert isdigit
         (fun _ allowed =>
            validate_language (List.filter not_FF returned) allowed)
         self parsed file_path caller_meta flag langs encoding keys.
Proof.
  intros returned. subst returned. rewrite !convert_spec.
  rewrite filter_not_FF_join by apply cleaned_pages_not_FF.
  split; reflexivity.
Qed.

Lemma filter_sublist {A} (f : A -> bool) (l : list A) :
  List.filter f l `sublist_of` l.
Proof.
  induction l as [|x l IH]; [reflexivity|].
  cbn [List.filter]. destruct (f x);
    [apply sublist_skip | apply sublist_cons]; exact IH.
Qed.

Lemma length_join_sublist (sep : pystr) (l1 l2 : list pystr) :
  l1 `sublist_of` l2 ->
  (length (join sep l1) <= length (join sep l2))%nat.
Proof.
  induction 1 as [|x l1 l2 Hsub IH|x l1 l2 Hsub IH].
  - reflexivity.
  - destruct l1 as [|y l1], l2 as [|z l2].
    + reflexivity.
    + rewrite join_cons2, length_app. cbn [join]. lia.
    + apply sublist_nil_r in Hsub. discriminate Hsub.
    + rewrite !join_cons2, !length_app. lia.
  - destruct l2 as [|z l2].
    + apply sublist_nil_r in Hsub. subst l1. cbn [join length]. lia.
    + rewrite join_cons2, !length_app. lia.
Qed.

Lemma splitlines_break (c d : N) (r : pystr) :
  islinebreak c = true ->
  splitlines (c :: d :: r)
  = [] :: (if (c =? CR) && (d =? LF) then splitlines r
           else splitlines (d :: r)).
Proof.
  intros Hc. change (splitlines (c :: d :: r))
    with (if islinebreak c
          then [] :: (if (c =? CR) && (d =? LF) then splitlines r
                      else splitlines (d :: r))
          else cons_first c (splitlines (d :: r))).
  rewrite Hc. reflexivity.
Qed.

Lemma filter_nothing {A} (f : A -> bool) (l : list A) :
  forallb (fun x => negb (f x)) l = true -> List.filter f l = [].
Proof.
  induction l as [|x l IH]; [reflexivity|].
  cbn [forallb List.filter]. rewrite andb_true_iff, negb_true_iff.
  intros [-> Hl]. exact (IH Hl).
Qed.

Lemma length_join_splitlines (s : pystr) :
  (length (join [LF] (splitlines s)) <= length s)%nat.
Proof.
  assert (Hcons : forall ls : list pystr,
             (length (join [LF] ([] :: ls)) <= 1 + length (join [LF] ls))%nat).
  { intros [|l ls]; [cbn; lia|]. rewrite join_cons2. cbn [app length]. lia. }
  induction s as [|c|c d r IHr IHd] using list_ind2.
  - reflexivity.
  - cbn [splitlines]. destruct (islinebreak c); cbn; lia.
  - destruct (islinebreak c) eqn:Hc.
    + rewrite splitlines_break by exact Hc.
      destruct ((c =? CR) && (d =? LF)).
      * specialize (Hcons (splitlines r)). cbn [length] in *. lia.
      * specialize (Hcons (splitlines (d :: r))). cbn [length] in *. lia.
    + rewrite splitlines_char, join_cons_first by exact Hc.
      cbn [length] in *. lia.
Qed.

(** X13: the filter only takes lines away: the lines it keeps are a
    subsequence of the page's lines, and the cleaned page is never longer
    than the page. *)
Theorem X13_cleaning_never_lengthens (isdigit : N -> bool) (flag : bool)
    (page : pystr) :
  kept_lines isdigit flag page `sublist_of` splitlines page
  /\ (length (clean_page isdigit flag page) <= length page)%nat.
Proof.
  assert (H : kept_lines isdigit flag page `sublist_of` splitlines page)
    by apply filter_sublist.
  split; [exact H|].
  rewrite clean_page_kept.
  etransitivity; [apply length_join_sublist, H|].
  apply length_join_splitlines.
Qed.

(** X14: a line none of whose words holds a digit is never a numeric row,
    so the filter keeps it; a line with at least one word, all of whose
    words hold a digit and whose stripped form does not end with a period,
    is always a numeric row. *)
Theorem X14_digit_free_and_all_digit_lines (isdigit : N -> bool)
    (line : pystr) :
  (forallb (fun word => negb (any isdigit word)) (split line) = true ->
   numeric_row isdigit line = false)
  /\ (split line <> [] ->
      forallb (fun word => any isdigit word) (split line) = true ->
      endswith (strip line) (py ".") = false ->
      numeric_row isdigit line = true).
Proof.
  split.
  - intros Hno. unfold numeric_row.
    rewrite (filter_nothing (fun word => any isdigit word) _ Hno).
    destruct (split line) as [|w ws]; [reflexivity|].
    destruct (ratio_gt_04 [] (w :: ws)) eqn:R;
      [|rewrite andb_false_r; reflexivity].
    apply ratio_gt_04_iff, ratio_cross in R; cbn [length] in *; lia.
  - intros Hne Hall Hend. unfold numeric_row.
    rewrite (filter_all (fun word => any isdigit word) _ Hall), Hend.
    destruct (split line) as [|w ws]; [congruence|].
    cbn [truthy negb andb]. rewrite andb_true_r.
    apply ratio_gt_04_iff, ratio_cross; cbn [length]; lia.
Qed.

Lemma X14_digit_free_and_all_digit_lines_witness :
  numeric_row isdigit_ascii (py "Table of contents") = false
  /\ numeric_row isdigit_ascii (py " 12   7.5  3rd ") = true.
Proof.
  split.
  - exact (proj1 (X14_digit_free_and_all_digit_lines isdigit_ascii
                    (py "Table of contents")) eq_refl).
  - apply (proj2 (X14_digit_free_and_all_digit_lines isdigit_ascii
                    (py " 12   7.5  3rd "))).
    + discriminate.
    + reflexivity.
    + reflexivity.
Defined.

Lemma filter_partition {A} (f : A -> bool) (l : list A) :
  l ≡ₚ List.filter (fun x => negb (f x)) l ++ List.filter f l.
Proof.
  induction l as [|x l IH]; [reflexivity|].
  cbn [List.filter]. destruct (f x); cbn [negb].
  - rewrite <- Permutation_middle. apply Permutation_skip, IH.
  - cbn [app]. apply Permutation_skip, IH.
Qed.

(** X15: the line loop accounts for every line: each line is either
    appended to the cleaned lines or reported in one debug record, in the
    order met; the reported lines are numeric rows, and none is reported when
    [remove_numeric_tables] is false. *)
Theorem X15_lines_kept_or_logged (isdigit : N -> bool) (file_path : pystr)
    (flag : bool) (lines cleaned : list pystr) (log : list log_record) :
  exists kept removed : list pystr,
    clean_lines isdigit file_path flag lines cleaned log
    = (cleaned ++ kept,
       log ++ map (fun l => debug_removing_line l file_path) removed)
    /\ lines ≡ₚ kept ++ removed
    /\ kept `sublist_of` lines
    /\ removed `sublist_of` lines
    /\ forallb (numeric_row isdigit) removed = true
    /\ (flag = false -> removed = []).
Proof.
  exists (List.filter (fun l => negb (flag && numeric_row isdigit l)) lines),
         (List.filter (fun l => flag && numeric_row isdigit l) lines).
  split; [apply clean_lines_spec|].
  split; [apply filter_partition|].
  split; [apply filter_sublist|].
  split; [apply filter_sublist|].
  split.
  - apply forallb_forall. intros l Hl. apply filter_In in Hl.
    destruct Hl as [_ Hl]. apply andb_true_iff in Hl. apply Hl.
  - intros ->. apply filter_none. reflexivity.
Qed.

(** X16: [meta=None] and [meta={}] give the same result, and the metadata
    of the returned document is then exactly the metadata of the service. *)
Theorem X16_no_caller_metadata (isdigit : N -> bool)
    (validate_language : pystr -> list pystr -> bool)
    (self : TikaConverter) (parsed : Parsed) (file_path : pystr)
    (flag : option bool) (langs : option (list pystr))
    (encoding : option pystr) (keys : option (list pystr)) :
  convert isdigit validate_language self parsed file_path None flag langs
    encoding keys
  = convert isdigit validate_language self parsed file_path (Some ∅) flag
      langs encoding keys
  /\ map meta (fst (convert isdigit validate_language self parsed file_path
                      None flag langs encoding keys))
     = [parsed_metadata parsed].
Proof.
  rewrite !convert_spec. split; [reflexivity|].
  cbn [fst map meta or_empty]. unfold dict_unpack, dict_update.
  rewrite (right_id_L ∅ (∪)), (left_id_L ∅ (∪)). reflexivity.
Qed.

Lemma removal_log_flag_off (isdigit : N -> bool) (file_path : pystr)
    (pgs : list pystr) :
  removal_log isdigit file_path false pgs = [].
Proof.
  unfold removal_log. induction pgs as [|p pgs IH]; [reflexivity|].
  cbn [flat_map]. rewrite IH, filter_none by reflexivity. reflexivity.
Qed.

(** X17: when the flag in effect is false (call-time value, else instance
    default), [convert] does not look at digits at all: its result is the
    same for every digit test, and it writes no debug record. *)
Theorem X17_flag_off_ignores_digits (isdigit isdigit' : N -> bool)
    (validate_language : pystr -> list pystr -> bool)
    (self : TikaConverter) (parsed : Parsed) (file_path : pystr)
    (caller_meta : option (gmap pystr pystr)) (flag : option bool)
    (langs : option (list pystr)) (encoding : option pystr)
    (keys : option (list pystr)) :
  or_default flag (self_remove_numeric_tables self) = false ->
  convert isdigit validate_language self parsed file_path caller_meta flag
    langs encoding keys
  = convert isdigit' validate_language self parsed file_path caller_meta flag
      langs encoding keys
  /\ forall line path,
       ~ In (debug_removing_line line path)
            (snd (convert isdigit validate_language self parsed file_path
                    caller_meta flag langs encoding keys)).
Proof.
  intros Hflag.
  assert (Hc : cleaned_pages_of isdigit self flag parsed
               = cleaned_pages_of isdigit' self flag parsed).
  { unfold cleaned_pages_of. rewrite Hflag. apply map_ext. intros p.
    rewrite !clean_page_kept, !kept_lines_flag_off. reflexivity. }
  rewrite !convert_spec, Hflag, !removal_log_flag_off, Hc.
  split; [reflexivity|].
  intros line path. cbn [snd app].
  destruct (effective_languages self langs) as [[|l ls]|]; try (intros []).
  destruct (validate_language _ _); [intros []|].
  intros [H|[]]. discriminate H.
Qed.

Lemma X17_flag_off_ignores_digits_witness :
  convert isdigit_ascii reject_all ex_converter (ex_parsed ex_two_pages)
    ex_path None (Some false) None None None
  = convert (fun _ => true) reject_all ex_converter (ex_parsed ex_two_pages)
      ex_path None (Some false) None None None.
Proof.
  exact (proj1 (X17_flag_off_ignores_digits isdigit_ascii (fun _ => true)
                  reject_all ex_converter (ex_parsed ex_two_pages) ex_path
                  None (Some false) None None None eq_refl)).
Defined.

Lemma paged_markup_page_count (pre : list event) (blocks : list page_block)
    (post : list event) :
  forallb (fun e => negb (is_flush_tag e)) pre = true ->
  forallb flat_block blocks = true ->
  forallb (fun e => negb (is_page_start e)) post = true ->
  length (pages (feed parser_init (paged_markup pre blocks post)))
  = Nat.max 1 (length blocks).
Proof.
  intros Hpre Hblocks Hpost. unfold paged_markup.
  rewrite feed_app, (feed_ingesting parser_init pre eq_refl Hpre).
  destruct blocks as [|b bs].
  - cbn [flat_map app]. rewrite feed_cons.
    rewrite (handle_flush _ (endtag (py "body"))) by reflexivity.
    rewrite feed_idle by first [reflexivity | exact Hpost]. reflexivity.
  - cbn [forallb] in Hblocks. apply andb_true_iff in Hblocks.
    destruct Hblocks as [Hb Hbs].
    cbn [flat_map]. rewrite <- !app_assoc, feed_app.
    rewrite (feed_container_ingesting _ b) by first [reflexivity | exact Hb].
    rewrite feed_app.
    rewrite (feed_containers_idle _ bs) by first [reflexivity | exact Hbs].
    rewrite feed_cons, handle_idle by reflexivity.
    rewrite feed_idle by first [reflexivity | exact Hpost].
    cbn [pages parser_init app length]. rewrite length_map. reflexivity.
Qed.

(** X18: end to end, for markup made of flat page containers and a final
    body close, splitting the returned text at ["\f"] gives one piece per
    page container (one piece when there is no container), whatever the
    filter removes. *)
Theorem X18_one_piece_per_container (isdigit : N -> bool)
    (validate_language : pystr -> list pystr -> bool)
    (self : TikaConverter) (metadata : gmap pystr pystr) (file_path : pystr)
    (caller_meta : option (gmap pystr pystr)) (flag : option bool)
    (langs : option (list pystr)) (encoding : option pystr)
    (keys : option (list pystr))
    (pre : list event) (blocks : list page_block) (post : list event) :
  forallb (fun e => negb (is_flush_tag e)) pre = true ->
  forallb flat_block blocks = true ->
  forallb (fun e => negb (is_page_start e)) post = true ->
  map (fun doc => length (split_char FF (content doc)))
      (fst (convert isdigit validate_language self
              {| parsed_content := paged_markup pre blocks post;
                 parsed_metadata := metadata |}
              file_path caller_meta flag langs encoding keys))
  = [Nat.max 1 (length blocks)].
Proof.
  intros Hpre Hblocks Hpost.
  pose proof (paged_markup_page_count pre blocks post Hpre Hblocks Hpost)
    as Hcount.
  rewrite convert_spec. cbn [fst map content].
  rewrite split_char_join by apply cleaned_pages_not_FF.
  unfold cleaned_pages_of. cbn [parsed_content].
  destruct (pages (feed parser_init (paged_markup pre blocks post)))
    as [|p ps]; cbn [length] in Hcount; [lia|].
  cbn [map truthy]. cbn [length]. rewrite length_map, <- Hcount. reflexivity.
Qed.

Lemma X18_one_piece_per_container_witness :
  map (fun doc => length (split_char FF (content doc)))
      (fst (convert isdigit_ascii reject_all ex_converter
              {| parsed_content :=
                   paged_markup ex_head
                     [ex_block (py "a"); ex_block (py "1 2 3");
                      ex_block (py "b")] ex_tail;
                 parsed_metadata := ∅ |}
              ex_path None (Some true) None None None))
  = [3%nat].
Proof.
  exact (X18_one_piece_per_container isdigit_ascii reject_all ex_converter ∅
           ex_path None (Some true) None None None ex_head
           [ex_block (py "a"); ex_block (py "1 2 3"); ex_block (py "b")]
           ex_tail eq_refl eq_refl eq_refl).
Defined.
